(** * DeepResearchVisualizer: the Markdown segmenter, the diagram code
      generator, title inference, the document view and the reports.

    The functions of the home page component ([generateMermaidCode],
    [generateTitleFromContent], [findHeadingsAndContent], [renderDocument]
    and the handlers of the page) and of
    [src/lib/firebase/firebaseUtils.ts] ([saveReport], [getReports]) are
    embedded as Rocq functions and their properties are proved about these
    embeddings.

    A JavaScript string is a sequence of UTF-16 code units; it is modelled
    as a list of numbers, so that [length], [substring], [split], [trim] and
    the regular expressions of the source act on code units as they do in
    the engine. The database and the engine are outside the code: whether
    [db] is set, what the database answers to a call and the text of an
    error of the engine are inputs of the functions that depend on them. *)

From Stdlib Require Import List NArith ZArith Bool Lia String Ascii DecimalString Sorted
  Permutation.
From stdpp Require Import gmap strings.
Import ListNotations.

(* ================================================================== *)
(** ** JavaScript strings *)
(* ================================================================== *)

Module JS.

Definition char := N.
Definition jsstring := list char.

(** A literal of the source, written as a Rocq string. *)
Definition lit (s : string) : jsstring :=
  List.map N_of_ascii (list_ascii_of_string s).

Definition nl : char := 10%N.
Definition hash : char := 35%N.
Definition dquote : char := 34%N.
Definition squote : char := 39%N.

Local Open Scope N_scope.

(** ECMAScript LineTerminator: LF, CR, LS, PS. *)
Definition isLineTerminator (c : char) : bool :=
  (c =? 10) || (c =? 13) || (c =? 0x2028) || (c =? 0x2029).

(** The class [\s] of a regular expression and the characters removed by
    [String.prototype.trim]: WhiteSpace (TAB, VT, FF, SP, NBSP, ZWNBSP and
    the Unicode space separators) together with LineTerminator. *)
Definition isWhiteSpace (c : char) : bool :=
  (c =? 9) || (c =? 11) || (c =? 12) || (c =? 32) || (c =? 0xA0)
  || (c =? 0x1680) || ((0x2000 <=? c) && (c <=? 0x200A))
  || (c =? 0x202F) || (c =? 0x205F) || (c =? 0x3000) || (c =? 0xFEFF)
  || isLineTerminator c.

Local Close Scope N_scope.

Fixpoint dropWhile (p : char -> bool) (s : jsstring) : jsstring :=
  match s with
  | [] => []
  | c :: r => if p c then dropWhile p r else s
  end.

Fixpoint takeWhile (p : char -> bool) (s : jsstring) : jsstring :=
  match s with
  | [] => []
  | c :: r => if p c then c :: takeWhile p r else []
  end.

Definition trimStart (s : jsstring) : jsstring := dropWhile isWhiteSpace s.
Definition trimEnd (s : jsstring) : jsstring :=
  rev (dropWhile isWhiteSpace (rev s)).

(** [s.trim()] *)
Definition trim (s : jsstring) : jsstring := trimEnd (trimStart s).

(** [s.replace(/c/g, d)] for a single character [c] *)
Definition replaceAll (c d : char) (s : jsstring) : jsstring :=
  List.map (fun x => if N.eqb x c then d else x) s.

(** [s.replace(/[...]/g, '')] for a character class [p] *)
Definition removeAll (p : char -> bool) (s : jsstring) : jsstring :=
  List.filter (fun x => negb (p x)) s.

(** [s.startsWith(c)] for a one-character string [c] *)
Definition startsWith (c : char) (s : jsstring) : bool :=
  match s with
  | x :: _ => N.eqb x c
  | [] => false
  end.

Fixpoint isPrefix (k s : jsstring) : bool :=
  match k, s with
  | [], _ => true
  | _ :: _, [] => false
  | a :: k', b :: s' => N.eqb a b && isPrefix k' s'
  end.

(** [s.includes(k)] *)
Fixpoint includes (s k : jsstring) : bool :=
  isPrefix k s ||
  match s with
  | [] => false
  | _ :: r => includes r k
  end.

(** [s.split(sep)] where [sep] is one character or a character class: the
    pieces between the separators, empty pieces included. The result is
    never empty (the empty string gives one empty piece), so it is built
    as a first piece and the pieces after it. *)
Fixpoint splitOn (p : char -> bool) (s : jsstring) : jsstring * list jsstring :=
  match s with
  | [] => ([], [])
  | c :: r =>
      let '(h, t) := splitOn p r in
      if p c then ([], h :: t) else (c :: h, t)
  end.

Definition split (p : char -> bool) (s : jsstring) : list jsstring :=
  let '(h, t) := splitOn p s in h :: t.

(** [a.join(sep)] *)
Fixpoint join (sep : jsstring) (a : list jsstring) : jsstring :=
  match a with
  | [] => []
  | [x] => x
  | x :: r => x ++ sep ++ join sep r
  end.

(** [s.substring(a, b)] for [0 <= a <= b]. *)
Definition substring (a b : nat) (s : jsstring) : jsstring :=
  firstn (b - a) (skipn a s).

(** [a.slice(start, end)] on an array, with the relative (negative)
    indices and the clamping of [Array.prototype.slice]. *)
Definition sliceIndex (len i : Z) : Z :=
  if (i <? 0)%Z then Z.max (len + i) 0 else Z.min i len.

Definition slice {A : Type} (a : list A) (start end_ : Z) : list A :=
  let len := Z.of_nat (length a) in
  let k := sliceIndex len start in
  let final := sliceIndex len end_ in
  firstn (Z.to_nat (final - k)) (skipn (Z.to_nat k) a).

(** [a.slice(start)] *)
Definition sliceFrom {A : Type} (a : list A) (start : Z) : list A :=
  slice a start (Z.of_nat (length a)).

(** The string of a non-negative integer, as a template literal
    [`${index}`] produces it. *)
Definition numberToString (n : nat) : jsstring :=
  lit (NilZero.string_of_uint (Nat.to_uint n)).

(** [a.forEach((x, index) => ...)] where the callback updates a local
    variable of type [S]. *)
Fixpoint forEachFrom {A S : Type} (f : S -> A -> nat -> S)
    (index : nat) (a : list A) (acc : S) : S :=
  match a with
  | [] => acc
  | x :: r => forEachFrom f (Datatypes.S index) r (f acc x index)
  end.

Definition forEach {A S : Type} (f : S -> A -> nat -> S) (a : list A) (acc : S) : S :=
  forEachFrom f 0 a acc.

(** [String.prototype.toLowerCase] follows the Unicode case tables, which
    are not part of the program: the functions that call it are stated
    over any case mapping. *)
Class CaseMapping := { toLowerCase : jsstring -> jsstring }.

(** The case mapping on the Basic Latin block (A-Z to a-z), on which it
    agrees with the engine; used to run the functions on ASCII inputs. *)
Definition basicLatinLower (c : char) : char :=
  if ((65 <=? c) && (c <=? 90))%N then (c + 32)%N else c.

Definition BasicLatin : CaseMapping :=
  {| toLowerCase := List.map basicLatinLower |}.

End JS.

Import JS.

(* ================================================================== *)
(** ** Diagram code generation ([generateMermaidCode], home page) *)
(* ================================================================== *)

Definition dq : jsstring := [dquote].
Definition eol : jsstring := [nl].

(** The character classes of the regular expressions of the source. *)
Definition isSquareBracket (c : char) : bool := N.eqb c 91 || N.eqb c 93.   (* /[[\]]/ *)
Definition isParenthesis (c : char) : bool := N.eqb c 40 || N.eqb c 41.     (* /[()]/ *)
Definition isClauseEnd (c : char) : bool :=                                 (* /[,.;]/ *)
  N.eqb c 44 || N.eqb c 46 || N.eqb c 59.
Definition isSentenceEnd (c : char) : bool :=                               (* /[.!?]/ *)
  N.eqb c 46 || N.eqb c 33 || N.eqb c 63.

(** [sanitizeText]: double quotes become single quotes, square brackets
    and parentheses are removed, the result is trimmed. *)
Definition sanitizeText (text : jsstring) : jsstring :=
  trim (removeAll isParenthesis (removeAll isSquareBracket (replaceAll dquote squote text))).

(** [s => s.trim().length > 0] *)
Definition nonBlank (s : jsstring) : bool := Nat.ltb 0 (length (trim s)).

Definition partnershipKeywords : list jsstring :=
  [lit "agreement"; lit "partnership"; lit "trade"; lit "collaboration"].
Definition marketKeywords : list jsstring :=
  [lit "market"; lit "growth"; lit "opportunity"; lit "expansion"].
Definition opportunityKeywords : list jsstring :=
  [lit "growth"; lit "opportunity"; lit "potential"; lit "market"].
Definition competitiveKeywords : list jsstring :=
  [lit "competitive"; lit "versus"; lit "vs"; lit "compared"; lit "competition"].
Definition sequenceKeywords : list jsstring :=
  [lit "step"; lit "process"; lit "timeline"; lit "sequence"; lit "first";
   lit "then"; lit "finally"].

(** The last statement of the function: the placeholder node. *)
Definition placeholderDiagram : jsstring :=
  lit "graph TD" ++ eol ++ lit "    A[" ++ dq ++ lit "No content to visualize" ++ dq ++ lit "]".

(** The text of one leaf of the mind map. *)
Definition nodeText (point : jsstring) : jsstring :=
  sanitizeText (substring 0 50 point ++ (if Nat.ltb 50 (length point) then lit "..." else [])).

Section Codegen.
Context {CM : CaseMapping}.

(** [keywords.some(keyword => text.toLowerCase().includes(keyword.toLowerCase()))] *)
Definition containsKeywords (text : jsstring) (keywords : list jsstring) : bool :=
  existsb (fun keyword => includes (toLowerCase text) (toLowerCase keyword)) keywords.

(** Lines 128-146: trade agreements or partnerships. *)
Definition partnershipChart (content heading : jsstring) : jsstring :=
  let flowchartCode := lit "graph LR" ++ eol in
  let flowchartCode :=
    flowchartCode ++ lit "    A((" ++ dq ++ sanitizeText heading ++ dq ++ lit "))" ++ eol in
  let entities :=
    List.map (fun s => sanitizeText (trim s))
      (firstn 4 (List.filter nonBlank (split isClauseEnd content))) in
  let flowchartCode :=
    forEach (fun code entity index =>
      let code := code ++ lit "    A --> B" ++ numberToString index
                    ++ lit "[" ++ dq ++ entity ++ dq ++ lit "]" ++ eol in
      code ++ lit "    style B" ++ numberToString index
           ++ lit " fill:#e1f5fe,stroke:#01579b" ++ eol)
      entities flowchartCode in
  flowchartCode ++ lit "    style A fill:#0277bd,stroke:#01579b,color:#fff" ++ eol.

(** Lines 149-166: market analysis or opportunities. *)
Definition marketChart (content heading : jsstring) : jsstring :=
  let flowchartCode := lit "graph TD" ++ eol in
  let flowchartCode :=
    flowchartCode ++ lit "    M((" ++ dq ++ sanitizeText heading ++ dq ++ lit "))" ++ eol in
  let opportunities :=
    List.map (fun s => sanitizeText (trim s))
      (firstn 4 (List.filter
         (fun s => nonBlank s && containsKeywords s opportunityKeywords)
         (split isSentenceEnd content))) in
  let flowchartCode :=
    forEach (fun code opp index =>
      let code := code ++ lit "    M --> O" ++ numberToString index
                    ++ lit "[" ++ dq ++ opp ++ dq ++ lit "]" ++ eol in
      code ++ lit "    style O" ++ numberToString index
           ++ lit " fill:#f3e5f5,stroke:#4a148c" ++ eol)
      opportunities flowchartCode in
  flowchartCode ++ lit "    style M fill:#7b1fa2,stroke:#4a148c,color:#fff" ++ eol.

(** Lines 169-194: competitive analysis or comparison. The [for] loop
    runs for [i < aspects.length - 1], that is not at all for no aspect. *)
Definition comparisonChart (content : jsstring) : jsstring :=
  let comparisonCode := lit "graph TB" ++ eol in
  let comparisonCode := comparisonCode ++ lit "    subgraph Comparison" ++ eol in
  let aspects :=
    List.map (fun s => sanitizeText (trim s))
      (firstn 3 (List.filter nonBlank (split isSentenceEnd content))) in
  let comparisonCode :=
    forEach (fun code aspect index =>
      code ++ lit "    A" ++ numberToString index
           ++ lit "[" ++ dq ++ aspect ++ dq ++ lit "]" ++ eol)
      aspects comparisonCode in
  let comparisonCode :=
    fold_left (fun code i =>
      code ++ lit "    A" ++ numberToString i ++ lit " --> A"
           ++ numberToString (i + 1) ++ eol)
      (seq 0 (length aspects - 1)) comparisonCode in
  let comparisonCode := comparisonCode ++ lit "    end" ++ eol in
  let comparisonCode :=
    comparisonCode
      ++ lit "    style Comparison fill:#f5f5f5,stroke:#333,stroke-width:2px" ++ eol in
  forEach (fun code _ index =>
    code ++ lit "    style A" ++ numberToString index
         ++ lit " fill:#e8eaf6,stroke:#1a237e" ++ eol)
    aspects comparisonCode.

(** Lines 197-218: sequential processes or steps. *)
Definition sequenceChart (content : jsstring) : jsstring :=
  let sequenceCode := lit "graph TD" ++ eol in
  let steps :=
    List.map (fun s => sanitizeText (trim s))
      (firstn 5 (List.filter nonBlank (split isSentenceEnd content))) in
  let sequenceCode :=
    forEach (fun code step index =>
      let code := code ++ lit "    S" ++ numberToString index
                    ++ lit "[" ++ dq ++ step ++ dq ++ lit "]" ++ eol in
      if Nat.ltb 0 index
      then code ++ lit "    S" ++ numberToString (index - 1) ++ lit " --> S"
                ++ numberToString index ++ eol
      else code)
      steps sequenceCode in
  forEach (fun code _ index =>
    code ++ lit "    style S" ++ numberToString index
         ++ lit " fill:#fff3e0,stroke:#e65100" ++ eol)
    steps sequenceCode.

(** Lines 221-224: the sentences of the default branch. *)
Definition keyPoints (content : jsstring) : list jsstring :=
  firstn 5 (List.filter nonBlank (split isSentenceEnd content)).

(** Lines 227-235: the mind map over the key points. *)
Definition mindmap (points : list jsstring) (heading : jsstring) : jsstring :=
  let mindmapCode := lit "mindmap" ++ eol in
  let mindmapCode := mindmapCode ++ lit "  root((" ++ sanitizeText heading ++ lit "))" ++ eol in
  forEach (fun code point _ => code ++ lit "    " ++ nodeText point ++ eol)
    points mindmapCode.

Definition generateMermaidCode (content heading : jsstring) : jsstring :=
  if containsKeywords content partnershipKeywords then partnershipChart content heading
  else if containsKeywords content marketKeywords then marketChart content heading
  else if containsKeywords content competitiveKeywords then comparisonChart content
  else if containsKeywords content sequenceKeywords then sequenceChart content
  else
    if Nat.ltb 0 (length (keyPoints content))
    then mindmap (keyPoints content) heading
    else placeholderDiagram.

End Codegen.

(* ================================================================== *)
(** ** Title inference ([generateTitleFromContent], home page) *)
(* ================================================================== *)

(** [/^#\s+(.+)$/m] tried at one position, which is the start of a line.
    After the [#], [\s+] first takes the whole run of white space and
    gives characters back one at a time, keeping at least one, until
    [(.+)] can start: [.] matches any character but a line terminator.
    [(.+)] then runs to the next line terminator or to the end of the
    input, where [$] holds. The result is the text of group 1. *)
Fixpoint giveBack (k : nat) (r : jsstring) : option jsstring :=
  match k with
  | O => None
  | S k' =>
      match skipn k r with
      | c :: _ =>
          if isLineTerminator c then giveBack k' r
          else Some (takeWhile (fun x => negb (isLineTerminator x)) (skipn k r))
      | [] => giveBack k' r
      end
  end.

Definition matchHeadingAt (s : jsstring) : option jsstring :=
  match s with
  | c :: r =>
      if N.eqb c hash then giveBack (length (takeWhile isWhiteSpace r)) r else None
  | [] => None
  end.

(** [content.match(/^#\s+(.+)$/m)]: the first position, from the left, at
    which the expression matches; [^] holds at the start of the input and
    after a line terminator. *)
Fixpoint matchHeading (atLineStart : bool) (s : jsstring) : option jsstring :=
  match s with
  | [] => None
  | c :: r =>
      match (if atLineStart then matchHeadingAt s else None) with
      | Some g => Some g
      | None => matchHeading (isLineTerminator c) r
      end
  end.

Definition defaultTitle : jsstring := lit "Untitled Report".

Definition generateTitleFromContent (content : jsstring) : jsstring :=
  match matchHeading true content with
  | Some group1 => trim group1
  | None =>
      let firstLine := trim (fst (splitOn (N.eqb nl) content)) in
      if Nat.ltb 0 (length firstLine) then
        if Nat.ltb 50 (length firstLine)
        then substring 0 47 firstLine ++ lit "..."
        else firstLine
      else defaultTitle
  end.

(* ================================================================== *)
(** ** The segmenter ([findHeadingsAndContent], home page) *)
(* ================================================================== *)

Record AnimationSection := mkSection {
  heading : jsstring;
  lineIndex : Z;
  content : jsstring
}.

(** [line.replace(/^#+\s+/, '')]: [#+] takes the whole run of [#]; the
    expression matches when a white-space character follows that run
    (giving back a [#] never helps: a [#] would follow), and the match,
    the run of [#] and the run of white space after it, is removed.
    Without a match the line is returned as it is. *)
Definition stripHeadingMarker (line : jsstring) : jsstring :=
  let afterHashes := dropWhile (N.eqb hash) line in
  match afterHashes with
  | c :: _ =>
      if startsWith hash line && isWhiteSpace c
      then dropWhile isWhiteSpace afterHashes
      else line
  | [] => line
  end.

(** A string used as a condition: the empty string is falsy. *)
Definition truthy (s : jsstring) : bool := Nat.ltb 0 (length s).

(** [sections[sections.length - 1].content = c]. On an empty array the
    element is [undefined] and the assignment throws a TypeError: [None]. *)
Definition setLastContent (sections : list AnimationSection) (c : jsstring)
  : option (list AnimationSection) :=
  match rev sections with
  | last :: before =>
      Some (rev before ++ [mkSection (heading last) (lineIndex last) c])
  | [] => None
  end.

(** [sections.pop()], which leaves an empty array empty. *)
Definition pop (sections : list AnimationSection) : list AnimationSection :=
  removelast sections.

Definition push (sections : list AnimationSection) (s : AnimationSection)
  : list AnimationSection :=
  sections ++ [s].

(** The two variables the loop updates. *)
Definition scan : Type := list AnimationSection * Z.

(** Lines 403-410 and 423-429: close the open section with the text
    [content], or drop it when the text is empty. *)
Definition closeSection (sections : list AnimationSection) (content : jsstring)
  : option (list AnimationSection) :=
  if truthy content then setLastContent sections content
  else Some (pop sections).

(** The callback of [lines.forEach], lines 399-419. *)
Definition visitLine (lines : list jsstring) (st : option scan)
    (line : jsstring) (index : nat) : option scan :=
  match st with
  | None => None
  | Some (sections, currentHeadingIndex) =>
      if startsWith hash line then
        let closed :=
          if negb (currentHeadingIndex =? -1)%Z then
            closeSection sections
              (trim (join eol (slice lines (currentHeadingIndex + 1) (Z.of_nat index))))
          else Some sections in
        match closed with
        | Some sections =>
            Some (push sections (mkSection (stripHeadingMarker line) (Z.of_nat index) []),
                  Z.of_nat index)
        | None => None
        end
      else Some (sections, currentHeadingIndex)
  end.

(** [findHeadingsAndContent]; [None] stands for an exception. *)
Definition findHeadingsAndContent (markdown : jsstring) : option (list AnimationSection) :=
  let lines := split (N.eqb nl) markdown in
  match forEach (visitLine lines) lines (Some ([], (-1)%Z)) with
  | None => None
  | Some (sections, currentHeadingIndex) =>
      if negb (currentHeadingIndex =? -1)%Z
         && (currentHeadingIndex <? Z.of_nat (length lines) - 1)%Z
      then closeSection sections (trim (join eol (sliceFrom lines (currentHeadingIndex + 1))))
      else Some sections
  end.

(* ================================================================== *)
(** ** Report persistence ([saveReport], firebaseUtils.ts) *)
(* ================================================================== *)

Module Firestore.

(** The values the properties of a report hold: strings ([userId],
    [title], [content]), dates ([createdAt], [updatedAt], as the time in
    milliseconds) and the array of sections ([animations]). *)
Inductive value :=
| VString (s : jsstring)
| VDate (millis : Z)
| VSections (items : list AnimationSection).

(** A JavaScript object, and a stored document, is a finite map from
    property names to values. *)
Abbreviation object := (gmap string value).

(** The world [saveReport] acts on: the system clock, given as the times
    it shows at its successive readings and the number of readings made so
    far, and the collections of the database, each the list of the
    documents added to it, oldest first. *)
Record World := mkWorld {
  clock : nat -> Z;
  reads : nat;
  collections : gmap string (list object)
}.

(** Effectful code passes the world along. *)
Definition M (A : Type) : Type := World -> A * World.

Definition ret {A : Type} (a : A) : M A := fun w => (a, w).
Definition bind {A B : Type} (m : M A) (k : A -> M B) : M B :=
  fun w => let '(a, w') := m w in k a w'.

Notation "'let*' x ':=' m 'in' k" := (bind m (fun x => k))
  (at level 10, x name, m at level 200, k at level 200).

(** [new Date()]: one reading of the clock. *)
Definition newDate : M value :=
  fun w => (VDate (clock w (reads w)),
            mkWorld (clock w) (S (reads w)) (collections w)).

(** The documents of a collection; a collection never written is empty. *)
Definition documents (w : World) (path : string) : list object :=
  match collections w !! path with
  | Some docs => docs
  | None => []
  end.

(** An error of the database or of the engine, as the code sees it: its
    [code], when it has one, and its [message]. *)
Record FirestoreError := mkError {
  code : option jsstring;
  message : jsstring
}.

(** What the database answers to [addDoc]: the document is accepted, or
    the write is refused with an error, as when the rules of the database
    do not permit it. *)
Inductive addDocAnswer :=
| Accepted
| Refused (error : FirestoreError).

(** [addDoc(collection(db, path), data)], with [db] set. When the
    database accepts the document, it is added to the collection, and the
    reference the promise resolves to names the collection and the
    position of the new document in it; when it refuses, the promise is
    rejected with the error and nothing is stored. *)
Definition addDoc (path : string) (data : object) (answer : addDocAnswer)
    : M (FirestoreError + string * nat) :=
  match answer with
  | Accepted =>
      fun w =>
        let docs := documents w path in
        (inr (path, length docs),
         mkWorld (clock w) (reads w) (<[path := docs ++ [data]]> (collections w)))
  | Refused error => ret (inl error)
  end.

Section SaveReport.

(** The error [collection(db, 'reports')] throws when [db] is not set; it
    is the library's. *)
Variable invalidDb : FirestoreError.

(** [saveReport], lines 70-77; [inl] is the error the promise is rejected
    with. [dbOk] tells whether [db] is set: without it the first statement
    throws, before the clock is read. Otherwise the object literal
    [{...report, createdAt: new Date(), updatedAt: new Date()}] copies the
    properties of [report] and then sets the two dates, in this order, and
    the object is handed to [addDoc]. *)
Definition saveReport (dbOk : bool) (answer : addDocAnswer) (report : object)
    : M (FirestoreError + string * nat) :=
  if negb dbOk then ret (inl invalidDb)
  else
    let* createdAt := newDate in
    let* updatedAt := newDate in
    addDoc "reports" (<["updatedAt" := updatedAt]> (<["createdAt" := createdAt]> report))
      answer.

End SaveReport.

End Firestore.

(* ================================================================== *)
(** ** The document view ([renderDocument], home page) *)
(* ================================================================== *)

(** The elements [renderDocument] puts in the page: a block of plain text,
    [<pre key=...>{text}</pre>], and the block of a section, with the
    heading line, in the large style when the line starts with [# ], and
    the diagram component with its two properties. *)
Inductive element :=
| TextBlock (key text : jsstring)
| SectionBlock (key : jsstring) (large : bool) (headingLine : jsstring)
    (diagramContent diagramHeading : jsstring).

(** [lines[index]] for a number [index]: [undefined], here [None], outside
    the array. *)
Definition lineAtIndex (lines : list jsstring) (index : Z) : option jsstring :=
  if (index <? 0)%Z then None else nth_error lines (Z.to_nat index).

(** The two variables the loop of [renderDocument] updates: the elements
    pushed so far and [currentLine]. *)
Definition view : Type := list element * Z.

(** The callback of [animations.forEach], lines 463-488; [blocks] is the
    array [content] of the source. Reading [startsWith] of an undefined
    line throws a TypeError: [None]. *)
Definition renderSection (lines : list jsstring) (st : option view)
    (section : AnimationSection) (index : nat) : option view :=
  match st with
  | None => None
  | Some (blocks, currentLine) =>
      let blocks :=
        if (currentLine <? lineIndex section)%Z
        then blocks ++ [TextBlock (lit "text-" ++ numberToString index)
                          (join eol (slice lines currentLine (lineIndex section)))]
        else blocks in
      match lineAtIndex lines (lineIndex section) with
      | None => None
      | Some line =>
          Some (blocks ++ [SectionBlock (lit "section-" ++ numberToString index)
                             (isPrefix (lit "# ") line) line
                             (content section) (heading section)],
                (lineIndex section + 1)%Z)
      end
  end.

(** [renderDocument], lines 456-504, for the values of the state it reads.
    The outer [None] stands for an exception, the inner one for [null]. *)
Definition renderDocument (showVisualization : bool) (markdownContent : jsstring)
    (animations : list AnimationSection) : option (option (list element)) :=
  if negb showVisualization then Some None
  else
    let lines := split (N.eqb nl) markdownContent in
    match forEach (renderSection lines) animations (Some ([], 0%Z)) with
    | None => None
    | Some (blocks, currentLine) =>
        if (currentLine <? Z.of_nat (length lines))%Z
        then Some (Some (blocks ++ [TextBlock (lit "text-final")
                                      (join eol (sliceFrom lines currentLine))]))
        else Some (Some blocks)
    end.

(** The text an element shows above or instead of a diagram, and the
    properties of the diagrams of the elements. *)
Definition elementText (e : element) : jsstring :=
  match e with
  | TextBlock _ text => text
  | SectionBlock _ _ headingLine _ _ => headingLine
  end.

Fixpoint diagramsOf (elements : list element) : list (jsstring * jsstring) :=
  match elements with
  | [] => []
  | TextBlock _ _ :: r => diagramsOf r
  | SectionBlock _ _ _ c h :: r => (c, h) :: diagramsOf r
  end.

(* ================================================================== *)
(** ** The state of the home page and its handlers *)
(* ================================================================== *)

(** A report as the page holds it (interface [Report]); the dates are
    times in milliseconds. *)
Module Report.
Record t := make {
  id : option jsstring;
  userId : jsstring;
  title : jsstring;
  content : jsstring;
  animations : list AnimationSection;
  createdAt : Z;
  updatedAt : Z
}.
End Report.

(** The state variables of the component that the handlers below read or
    write. A handler is a function from the state of the render in which
    it was created to the state of the next render: its calls of the
    [set...] functions are applied together when it returns. *)
Record PageState := mkPage {
  markdownContent : jsstring;
  isProcessing : bool;
  animations : list AnimationSection;
  showVisualization : bool;
  reportTitle : jsstring;
  selectedReport : option Report.t
}.

(** The state of the first render, from the [useState] calls. *)
Definition initialPage : PageState := mkPage [] false [] false [] None.

(** [handleSubmit], lines 435-454: nothing for a blank text; else the
    sections and the title are computed and shown. An exception of the
    segmenter is caught and logged; [isProcessing], set at the start, is
    reset in the [finally] block. *)
Definition handleSubmit (st : PageState) : PageState :=
  if negb (truthy (trim (markdownContent st))) then st
  else
    match findHeadingsAndContent (markdownContent st) with
    | Some foundSections =>
        mkPage (markdownContent st) false foundSections true
          (generateTitleFromContent (markdownContent st)) (selectedReport st)
    | None =>
        mkPage (markdownContent st) false (animations st) (showVisualization st)
          (reportTitle st) (selectedReport st)
    end.

(** [handleStartNew], lines 506-512. *)
Definition handleStartNew (st : PageState) : PageState :=
  mkPage [] (isProcessing st) [] false [] None.

(** [handleContentChange], lines 382-386, for the value of the text area. *)
Definition handleContentChange (value : jsstring) (st : PageState) : PageState :=
  mkPage value (isProcessing st) (animations st) false (reportTitle st)
    (selectedReport st).

(** [handlePaste], lines 388-392, for the text of the clipboard. *)
Definition handlePaste (pastedText : jsstring) (st : PageState) : PageState :=
  mkPage pastedText (isProcessing st) (animations st) false (reportTitle st)
    (selectedReport st).

(** [handleLoadReport], lines 358-364. *)
Definition handleLoadReport (report : Report.t) (st : PageState) : PageState :=
  mkPage (Report.content report) (isProcessing st) (Report.animations report) true
    (Report.title report) (Some report).

(** What the user does on the page, and the state after a series of such
    actions. *)
Inductive action :=
| Submit
| StartNew
| ContentChange (value : jsstring)
| Paste (pastedText : jsstring)
| LoadReport (report : Report.t).

Definition handle (st : PageState) (a : action) : PageState :=
  match a with
  | Submit => handleSubmit st
  | StartNew => handleStartNew st
  | ContentChange value => handleContentChange value st
  | Paste pastedText => handlePaste pastedText st
  | LoadReport report => handleLoadReport report st
  end.

Definition run (actions : list action) : PageState :=
  fold_left handle actions initialPage.

(** A report whose sections are those of its text, as a report saved from
    a page that shows its sections is. *)
Definition segmented (report : Report.t) : Prop :=
  findHeadingsAndContent (Report.content report) = Some (Report.animations report).

Definition loadsSegmented (a : action) : Prop :=
  match a with
  | LoadReport report => segmented report
  | _ => True
  end.

(* ================================================================== *)
(** ** Listing the reports ([getReports], firebaseUtils.ts) *)
(* ================================================================== *)

Module Listing.
Import Firestore.

(** What [getDocs] answers: the documents of the query, each with its
    identifier and its data, or an error. *)
Inductive getDocsAnswer :=
| Snapshot (docs : list (jsstring * object))
| Rejected (error : FirestoreError).

(** The objects the function builds and returns as reports. The first
    five properties hold what the document holds, of whatever type; the
    two dates are dates, as times in milliseconds. *)
Record Loaded := mkLoaded {
  id : jsstring;
  userId : option value;
  title : value;
  content : value;
  animations : value;
  createdAt : Z;
  updatedAt : Z
}.

(** A value used as a condition: only the empty string is falsy among the
    values of a document; dates and arrays are objects. *)
Definition truthyValue (v : value) : bool :=
  match v with
  | VString s => truthy s
  | VDate _ => true
  | VSections _ => true
  end.

(** [data.x || d], for a property that may be missing. *)
Definition orElse (x : option value) (d : value) : value :=
  match x with
  | Some v => if truthyValue v then v else d
  | None => d
  end.

Fixpoint stringEq (a b : jsstring) : bool :=
  match a, b with
  | [], [] => true
  | x :: a', y :: b' => N.eqb x y && stringEq a' b'
  | _, _ => false
  end.

(** [error.code === c] *)
Definition hasCode (error : FirestoreError) (c : jsstring) : bool :=
  match code error with
  | Some x => stringEq x c
  | None => false
  end.

(** The [catch] block, lines 116-136, as the message of the error it
    throws; [authOk] tells whether [auth] is set, [db] being set when the
    block is reached with an error of the database. *)
Definition loadError (authOk : bool) (error : FirestoreError) : jsstring :=
  if negb authOk
  then lit "Firebase not initialized. Please check your configuration."
  else if hasCode error (lit "failed-precondition") || hasCode error (lit "unavailable")
  then lit "Unable to connect to the database. Please check your internet connection."
  else if hasCode error (lit "permission-denied")
  then lit "You do not have permission to access these reports."
  else lit "Failed to load reports: " ++ message error.

Section GetReports.

(** The message of the TypeError for calling [toDate] on the value of a
    property of [data] that has no such method. Its text is the engine's
    and names the expression called, so it differs with the property
    read: [notAFunction name] is the message for [data.name?.toDate()]. *)
Variable notAFunction : string -> jsstring.

(** [data.name?.toDate() || new Date()]: the time now for a missing
    property, the date of a stored date, a TypeError for any other
    value. *)
Definition dateOrNow (data : object) (name : string) : M (FirestoreError + Z) :=
  match data !! name with
  | None =>
      fun w => (inr (clock w (reads w)),
                mkWorld (clock w) (S (reads w)) (collections w))
  | Some (VDate millis) => ret (inr millis)
  | Some _ => ret (inl (mkError None (notAFunction name)))
  end.

(** The callback of [querySnapshot.docs.map], lines 96-107. *)
Definition loadOne (doc : jsstring * object) : M (FirestoreError + Loaded) :=
  let data := snd doc in
  let* created := dateOrNow data "createdAt" in
  match created with
  | inl e => ret (inl e)
  | inr c =>
      let* updated := dateOrNow data "updatedAt" in
      match updated with
      | inl e => ret (inl e)
      | inr u =>
          ret (inr (mkLoaded (fst doc) (data !! "userId")
                      (orElse (data !! "title") (VString []))
                      (orElse (data !! "content") (VString []))
                      (orElse (data !! "animations") (VSections []))
                      c u))
      end
  end.

(** [docs.map(...)], which stops at the first exception. *)
Fixpoint loadAll (docs : list (jsstring * object)) : M (FirestoreError + list Loaded) :=
  match docs with
  | [] => ret (inr [])
  | doc :: rest =>
      let* r := loadOne doc in
      match r with
      | inl e => ret (inl e)
      | inr report =>
          let* rs := loadAll rest in
          match rs with
          | inl e => ret (inl e)
          | inr reports => ret (inr (report :: reports))
          end
      end
  end.

(** [reports.sort((a, b) => b.createdAt.getTime() - a.createdAt.getTime())]:
    the sort is stable; an element goes before the first one that the
    comparison does not put before it. *)
Fixpoint insertReport (a : Loaded) (sorted : list Loaded) : list Loaded :=
  match sorted with
  | [] => [a]
  | b :: rest =>
      if (createdAt b - createdAt a <=? 0)%Z
      then a :: b :: rest
      else b :: insertReport a rest
  end.

Definition sortReports (reports : list Loaded) : list Loaded :=
  fold_right insertReport [] reports.

(** [getReports], lines 79-137: [inl] is the message of the error thrown.
    Without [db] the first statement of the [try] block throws. *)
Definition getReports (dbOk authOk : bool) (userId : jsstring)
    (answer : getDocsAnswer) : M (jsstring + list Loaded) :=
  if negb dbOk
  then ret (inl (lit "Firebase not initialized. Please check your configuration."))
  else
    match answer with
    | Rejected error => ret (inl (loadError authOk error))
    | Snapshot [] => ret (inr [])
    | Snapshot docs =>
        let* r := loadAll docs in
        match r with
        | inl error => ret (inl (loadError authOk error))
        | inr reports => ret (inr (sortReports reports))
        end
    end.

End GetReports.

(** A document whose two dates are missing or dates. *)
Definition dated (doc : jsstring * object) : Prop :=
  (snd doc !! "createdAt" = None \/ exists t, snd doc !! "createdAt" = Some (VDate t)) /\
  (snd doc !! "updatedAt" = None \/ exists t, snd doc !! "updatedAt" = Some (VDate t)).

(** A document that holds, as one of its two dates, a value that is no
    date. *)
Definition misdated (doc : jsstring * object) : Prop :=
  exists v, (snd doc !! "createdAt" = Some v \/ snd doc !! "updatedAt" = Some v) /\
            forall t, v <> VDate t.

(** The property [name] of a document holds a value that is no date. *)
Definition notDate (doc : jsstring * object) (name : string) : Prop :=
  exists v, snd doc !! name = Some v /\ forall t, v <> VDate t.

(** The property the callback fails on: [createdAt] when it holds a value
    that is no date; [updatedAt] when [createdAt] is missing or a date and
    [updatedAt] holds a value that is no date. *)
Definition failsOn (doc : jsstring * object) (name : string) : Prop :=
  (name = "createdAt" /\ notDate doc "createdAt") \/
  (name = "updatedAt" /\
   (snd doc !! "createdAt" = None \/ exists t, snd doc !! "createdAt" = Some (VDate t)) /\
   notDate doc "updatedAt").

(** The order of the list returned: newest first. *)
Definition newestFirst (a b : Loaded) : Prop := (createdAt b <= createdAt a)%Z.

(** What a report built from a document holds. *)
Definition loadedFrom (doc : jsstring * object) (r : Loaded) : Prop :=
  id r = fst doc /\
  userId r = snd doc !! "userId" /\
  title r = orElse (snd doc !! "title") (VString []) /\
  content r = orElse (snd doc !! "content") (VString []) /\
  animations r = orElse (snd doc !! "animations") (VSections []) /\
  (forall t, snd doc !! "createdAt" = Some (VDate t) -> createdAt r = t) /\
  (forall t, snd doc !! "updatedAt" = Some (VDate t) -> updatedAt r = t).

End Listing.

(* ================================================================== *)
(** ** Notions used in the statements *)
(* ================================================================== *)

(** Some line of [s] starts with a [#] that is followed by a white-space
    character; [atLineStart] tells whether [s] itself starts a line. *)
Fixpoint hasHeadingStart (atLineStart : bool) (s : jsstring) : bool :=
  match s with
  | [] => false
  | c :: r =>
      (atLineStart && N.eqb c hash
       && match r with w :: _ => isWhiteSpace w | [] => false end)
      || hasHeadingStart (isLineTerminator c) r
  end.

(** Whether the position after [s] starts a line, when [s] itself starts
    at the start of a line ([atLineStart]) or not. *)
Fixpoint lineStartAfter (atLineStart : bool) (s : jsstring) : bool :=
  match s with
  | [] => atLineStart
  | c :: r => lineStartAfter (isLineTerminator c) r
  end.

(** The text [post] that follows a line: nothing, or text that starts with
    a line terminator. *)
Definition atLineEnd (post : jsstring) : bool :=
  match post with
  | [] => true
  | c :: _ => isLineTerminator c
  end.

Definition notLineTerminator (c : char) : bool := negb (isLineTerminator c).

(** Title inference as the specification words it, line by line: the
    trimmed text of the first line made of one [#], white space and text;
    else the trimmed first line, cut to 47 characters and an ellipsis when
    longer than 50; else, for a document that is empty in the sense of the
    comment of the source, its first line having no text, the default
    title. *)
Fixpoint firstHeadingText (lines : list jsstring) : option jsstring :=
  match lines with
  | [] => None
  | line :: rest =>
      match matchHeadingAt line with
      | Some text => Some text
      | None => firstHeadingText rest
      end
  end.

Definition inferTitle (markdown : jsstring) : jsstring :=
  match firstHeadingText (split (N.eqb nl) markdown) with
  | Some text => trim text
  | None =>
      let firstLine := trim (fst (splitOn (N.eqb nl) markdown)) in
      match firstLine with
      | [] => defaultTitle
      | _ :: _ =>
          if Nat.ltb 50 (length firstLine)
          then substring 0 47 firstLine ++ lit "..."
          else firstLine
      end
  end.

(** The document [saveReport] hands to [addDoc] for a report, when called
    in the world [w]: the report with the two next readings of the clock
    as its dates. *)
Definition stamped (report : Firestore.object) (w : Firestore.World) : Firestore.object :=
  <["updatedAt" := Firestore.VDate (Firestore.clock w (S (Firestore.reads w)))]>
    (<["createdAt" := Firestore.VDate (Firestore.clock w (Firestore.reads w))]> report).

(** The first character of [s], if there is one, is not in the class [p]. *)
Definition headOutside (p : char -> bool) (s : jsstring) : bool :=
  match s with
  | c :: _ => negb (p c)
  | [] => true
  end.

(** The first lines of the diagram programs the renderer is given. *)
Definition diagramHeaders : list jsstring :=
  [lit "graph LR"; lit "graph TD"; lit "graph TB"; lit "mindmap"].

(** The first line of a text. *)
Definition firstLineOf (s : jsstring) : jsstring := fst (splitOn (N.eqb nl) s).

(** The text [s] begins with the text [prefix]. *)
Definition beginsWith (prefix s : jsstring) : Prop := exists rest, s = prefix ++ rest.

(** The line of the mind map for one key point. *)
Definition leafLine (point : jsstring) : jsstring := lit "    " ++ nodeText point ++ eol.

(** Text with no double quote, square bracket or parenthesis: the
    characters [sanitizeText] rewrites or removes. *)
Definition plainChar (c : char) : bool :=
  negb (N.eqb c dquote) && negb (isSquareBracket c) && negb (isParenthesis c).
Definition plainText (s : jsstring) : bool := forallb plainChar s.

(** The heading of the specification: the line without its leading run of
    [#] and the white space after that run. *)
Definition headingText (line : jsstring) : jsstring :=
  dropWhile isWhiteSpace (dropWhile (N.eqb hash) line).

(** The line of the document at a zero-based index. *)
Definition lineAt (markdown : jsstring) (index : Z) : option jsstring :=
  if (index <? 0)%Z then None
  else nth_error (split (N.eqb nl) markdown) (Z.to_nat index).

(** A section is anchored in the lines of the document: its [lineIndex]
    is the index of a line that starts with [#], and its [heading] is what
    the source makes of that line. *)
Definition anchored (lines : list jsstring) (s : AnimationSection) : Prop :=
  (0 <= lineIndex s)%Z /\
  exists line,
    nth_error lines (Z.to_nat (lineIndex s)) = Some line /\
    startsWith hash line = true /\
    heading s = stripHeadingMarker line.

(** A section whose trimmed content is not empty. *)
Definition filled (s : AnimationSection) : Prop := truthy (trim (content s)) = true.

(** What holds of the two variables of the loop of the segmenter before
    the line of index [j] is visited: no exception was thrown; either no
    heading was seen and there is no section, or the last section is the
    open one, of the last heading seen, and the sections before it are
    filled; the sections are in the order of their lines, which were all
    visited. *)
Definition scanInvariant (lines : list jsstring) (j : nat) (st : option scan) : Prop :=
  exists sections currentHeadingIndex,
    st = Some (sections, currentHeadingIndex) /\
    ((currentHeadingIndex = (-1)%Z /\ sections = []) \/
     (exists front open,
        sections = front ++ [open] /\ lineIndex open = currentHeadingIndex /\
        Forall filled front)) /\
    StronglySorted Z.lt (List.map lineIndex sections) /\
    Forall (fun s => (lineIndex s < Z.of_nat j)%Z /\ anchored lines s) sections.

(* ================================================================== *)
(** ** The body of a heading *)
(* ================================================================== *)

(** The lines of [rest] up to, and without, the first that starts with
    [#]. *)
Fixpoint untilHeading (rest : list jsstring) : list jsstring :=
  match rest with
  | [] => []
  | line :: r => if startsWith hash line then [] else line :: untilHeading r
  end.

(** The lines after the line of index [i], up to the next line that starts
    with [#] or to the end of the document, and their text, trimmed. *)
Definition bodyLines (lines : list jsstring) (i : nat) : list jsstring :=
  untilHeading (skipn (S i) lines).

Definition bodyText (lines : list jsstring) (i : nat) : jsstring :=
  trim (join eol (bodyLines lines i)).

(** What the line of index [i] contributes to the result of the segmenter:
    a section when it starts with [#] and its body has text, or when it
    starts with [#] and is the last line of the document; else nothing. *)
Definition sectionAt (lines : list jsstring) (i : nat) : list AnimationSection :=
  match nth_error lines i with
  | Some line =>
      if startsWith hash line
         && (truthy (bodyText lines i) || Nat.eqb (S i) (length lines))
      then [mkSection (stripHeadingMarker line) (Z.of_nat i) (bodyText lines i)]
      else []
  | None => []
  end.

(** What holds of the two variables of the loop before the line of index
    [j] is visited, in terms of [sectionAt]. *)
Definition closedUpTo (lines : list jsstring) (j : nat) (st : option scan) : Prop :=
  exists sections currentHeadingIndex,
    st = Some (sections, currentHeadingIndex) /\
    ((currentHeadingIndex = (-1)%Z /\ sections = [] /\
      forall i line, i < j -> nth_error lines i = Some line ->
                     startsWith hash line = false) \/
     (exists c line,
        currentHeadingIndex = Z.of_nat c /\ c < j /\
        nth_error lines c = Some line /\ startsWith hash line = true /\
        (forall i l, c < i < j -> nth_error lines i = Some l ->
                     startsWith hash l = false) /\
        sections = flat_map (sectionAt lines) (seq 0 c)
                     ++ [mkSection (stripHeadingMarker line) (Z.of_nat c) []])).

(* ================================================================== *)
(** ** The lines of the diagram programs *)
(* ================================================================== *)

(** The list of [f x index] for the elements [x] of a list and their
    indices, counted from [index]. *)
Fixpoint mapFrom {A B : Type} (f : A -> nat -> B) (index : nat) (a : list A) : list B :=
  match a with
  | [] => []
  | x :: r => f x index :: mapFrom f (S index) r
  end.

(** The texts the four charts show, as the source computes them. *)
Definition entities (content : jsstring) : list jsstring :=
  List.map (fun s => sanitizeText (trim s))
    (firstn 4 (List.filter nonBlank (split isClauseEnd content))).

Definition opportunities {CM : CaseMapping} (content : jsstring) : list jsstring :=
  List.map (fun s => sanitizeText (trim s))
    (firstn 4 (List.filter
       (fun s => nonBlank s && containsKeywords s opportunityKeywords)
       (split isSentenceEnd content))).

Definition aspects (content : jsstring) : list jsstring :=
  List.map (fun s => sanitizeText (trim s))
    (firstn 3 (List.filter nonBlank (split isSentenceEnd content))).

Definition steps (content : jsstring) : list jsstring :=
  List.map (fun s => sanitizeText (trim s))
    (firstn 5 (List.filter nonBlank (split isSentenceEnd content))).

(** The lines written for one entity, opportunity, aspect or step. *)
Definition entityLines (entity : jsstring) (index : nat) : jsstring :=
  lit "    A --> B" ++ numberToString index ++ lit "[" ++ dq ++ entity ++ dq ++ lit "]" ++ eol
  ++ lit "    style B" ++ numberToString index ++ lit " fill:#e1f5fe,stroke:#01579b" ++ eol.

Definition opportunityLines (opp : jsstring) (index : nat) : jsstring :=
  lit "    M --> O" ++ numberToString index ++ lit "[" ++ dq ++ opp ++ dq ++ lit "]" ++ eol
  ++ lit "    style O" ++ numberToString index ++ lit " fill:#f3e5f5,stroke:#4a148c" ++ eol.

Definition aspectLine (aspect : jsstring) (index : nat) : jsstring :=
  lit "    A" ++ numberToString index ++ lit "[" ++ dq ++ aspect ++ dq ++ lit "]" ++ eol.

Definition aspectEdge (i : nat) : jsstring :=
  lit "    A" ++ numberToString i ++ lit " --> A" ++ numberToString (i + 1) ++ eol.

Definition aspectStyle (_ : jsstring) (index : nat) : jsstring :=
  lit "    style A" ++ numberToString index ++ lit " fill:#e8eaf6,stroke:#1a237e" ++ eol.

Definition stepLines (step : jsstring) (index : nat) : jsstring :=
  lit "    S" ++ numberToString index ++ lit "[" ++ dq ++ step ++ dq ++ lit "]" ++ eol
  ++ (if Nat.ltb 0 index
      then lit "    S" ++ numberToString (index - 1) ++ lit " --> S"
             ++ numberToString index ++ eol
      else []).

Definition stepStyle (_ : jsstring) (index : nat) : jsstring :=
  lit "    style S" ++ numberToString index ++ lit " fill:#fff3e0,stroke:#e65100" ++ eol.

(* ================================================================== *)
(** ** Sample documents *)
(* ================================================================== *)

(** Content with a partnership keyword and a market keyword. *)
Definition tradeNote : jsstring := lit "A trade Agreement opens the MARKET, at last".
Definition tradeHeading : jsstring := lit "Deal [2024]".

(** A note of one sentence of 80 letters, and one of 40 letters. *)
Definition eightyLetters : jsstring := repeat 97%N 80.
Definition fortyLetters : jsstring := repeat 98%N 40.

(** Prose of three sentences: the second has 80 characters and the third
    40, each starting with the space that follows the full stop. *)
Definition prose : jsstring :=
  lit "Intro." ++ 32%N :: repeat 97%N 79 ++ lit "." ++ 32%N :: repeat 98%N 39.

(** A sentence of 80 characters that opens a parenthesis, and one of 40
    characters that ends with a double quote. *)
Definition bracketed : jsstring := 40%N :: repeat 97%N 79.
Definition quoted : jsstring := repeat 98%N 39 ++ [dquote].

(** Notes with an introduction before the first heading, a heading
    without text and two headings with text. *)
Definition notes : jsstring :=
  lit "intro" ++ eol ++ lit "# Empty" ++ eol ++ eol ++ lit "## Plan" ++ eol
    ++ lit "  step one" ++ eol ++ lit "step two  " ++ eol ++ lit "# Risks" ++ eol
    ++ lit "none".

(** A text without headings. *)
Definition plainNote : jsstring := lit "first line" ++ eol ++ lit "second # line".

(** Notes for the four charts. *)
Definition tradeClauses : jsstring := lit "Trade pact; one, two. three; four, five".
Definition marketNote : jsstring := lit "The market grows. Costs fall! Growth holds? Yes.".
Definition rivalsNote : jsstring := lit "A versus B. C! D? E. F".
Definition recipe : jsstring := lit "First boil. Then stir!".

(** Stored documents: an older and a newer report, and one whose
    [createdAt] is a string. *)
Definition olderDoc : jsstring * Firestore.object :=
  (lit "a", <["title" := Firestore.VString (lit "Old")]>
              (<["createdAt" := Firestore.VDate 100]>
                 (<["updatedAt" := Firestore.VDate 150]> ∅))).
Definition newerDoc : jsstring * Firestore.object :=
  (lit "b", <["createdAt" := Firestore.VDate 200]> ∅).
Definition brokenDoc : jsstring * Firestore.object :=
  (lit "c", <["createdAt" := Firestore.VString (lit "yesterday")]> ∅).
Definition quietWorld : Firestore.World :=
  Firestore.mkWorld (fun n => Z.of_nat n) 0 ∅.

Definition v8NotAFunction (name : string) : jsstring :=
  lit "data." ++ lit name ++ lit "?.toDate is not a function".

(** A report to save, which comes with dates of the caller's; a world in
    which one report was saved before; the error of a write that is not
    permitted, and the error for a database that is not set. *)
Definition reportToSave : Firestore.object :=
  <["userId" := Firestore.VString (lit "u1")]>
    (<["title" := Firestore.VString (lit "Q3")]>
       (<["createdAt" := Firestore.VDate 1]>
          (<["updatedAt" := Firestore.VDate 2]> ∅))).
Definition busyWorld : Firestore.World :=
  Firestore.mkWorld (fun n => 1000 + Z.of_nat n)%Z 7
    (<["reports" := [<["title" := Firestore.VString (lit "Q2")]> ∅]]> ∅).
Definition permissionDenied : Firestore.FirestoreError :=
  Firestore.mkError (Some (lit "permission-denied"))
    (lit "Missing or insufficient permissions.").
Definition dbNotSet : Firestore.FirestoreError :=
  Firestore.mkError (Some (lit "invalid-argument"))
    (lit "Expected first argument to collection() to be a CollectionReference, a DocumentReference or FirebaseFirestore").

(** A document whose heading is on its second line, and two in which a
    [#] stands alone on the first line. *)
Definition draft : jsstring :=
  lit "Draft of May" ++ eol ++ lit "# Quarterly Report" ++ eol ++ lit "body".
Definition bareMarkerDraft : jsstring :=
  lit "#" ++ eol ++ lit "body" ++ eol ++ lit "# Real Title".
Definition bareMarkerPair : jsstring := lit "#" ++ eol ++ lit "# Real".

(** Content for the partnership chart with a line break inside a clause,
    and content for the mind map with a line break inside a sentence. *)
Definition brokenClause : jsstring := lit "trade one" ++ eol ++ lit "two, three".
Definition brokenSentence : jsstring := lit "alpha" ++ eol ++ lit "beta. gamma".

(* ================================================================== *)
(** * Properties *)
(* ================================================================== *)

(** ** Strings *)

Section Scans.
Variable p : char -> bool.

Lemma dropWhile_headOutside s : headOutside p (dropWhile p s) = true.
Proof.
  induction s as [|c r IH]; simpl; [reflexivity|].
  destruct (p c) eqn:E; [exact IH|]. simpl. now rewrite E.
Qed.

Lemma dropWhile_fixed s : headOutside p s = true -> dropWhile p s = s.
Proof.
  destruct s as [|c r]; simpl; [reflexivity|].
  now destruct (p c).
Qed.

Lemma takeWhile_dropWhile s : takeWhile p s ++ dropWhile p s = s.
Proof.
  induction s as [|c r IH]; simpl; [reflexivity|].
  destruct (p c); simpl; [now rewrite IH | reflexivity].
Qed.

Lemma dropWhile_In c s : In c (dropWhile p s) -> In c s.
Proof.
  intros H. rewrite <- (takeWhile_dropWhile s). apply in_or_app. now right.
Qed.

Lemma takeWhile_app a b :
  forallb p a = true -> headOutside p b = true -> takeWhile p (a ++ b) = a.
Proof.
  intros Ha Hb. induction a as [|c a IH]; simpl in *.
  - destruct b as [|d b]; simpl in *; [reflexivity|].
    now destruct (p d).
  - apply andb_prop in Ha as [Hc Ha]. rewrite Hc. now rewrite IH.
Qed.

End Scans.

Lemma trimEnd_prefix s : exists w, s = trimEnd s ++ w.
Proof.
  unfold trimEnd. exists (rev (takeWhile isWhiteSpace (rev s))).
  rewrite <- rev_app_distr, takeWhile_dropWhile. now rewrite rev_involutive.
Qed.

Lemma trim_In c s : In c (trim s) -> In c s.
Proof.
  unfold trim, trimEnd, trimStart. intros H.
  apply in_rev in H. apply dropWhile_In in H. apply in_rev in H.
  now apply dropWhile_In in H.
Qed.

(** A string that neither starts nor ends with white space is its own
    trimmed form. *)
Lemma trim_fixed s :
  headOutside isWhiteSpace s = true ->
  headOutside isWhiteSpace (rev s) = true ->
  trim s = s.
Proof.
  intros H1 H2. unfold trim, trimStart, trimEnd.
  rewrite (dropWhile_fixed _ s H1), (dropWhile_fixed _ _ H2).
  apply rev_involutive.
Qed.

Lemma trim_ends s :
  headOutside isWhiteSpace (trim s) = true /\
  headOutside isWhiteSpace (rev (trim s)) = true.
Proof.
  split.
  - unfold trim. destruct (trimEnd_prefix (trimStart s)) as [w Hw].
    pose proof (dropWhile_headOutside isWhiteSpace s) as Hh.
    fold (trimStart s) in Hh. rewrite Hw in Hh.
    destruct (trimEnd (trimStart s)); [reflexivity | exact Hh].
  - unfold trim, trimEnd. rewrite rev_involutive. apply dropWhile_headOutside.
Qed.

Lemma trim_idempotent s : trim (trim s) = trim s.
Proof. destruct (trim_ends s). now apply trim_fixed. Qed.

Lemma lineTerminator_isWhiteSpace c :
  isLineTerminator c = true -> isWhiteSpace c = true.
Proof. unfold isWhiteSpace. intros ->. now rewrite !orb_true_r. Qed.

Lemma removeAll_fixed q s :
  forallb (fun c => negb (q c)) s = true -> removeAll q s = s.
Proof.
  unfold removeAll. induction s as [|c r IH]; simpl; [reflexivity|].
  intros H. apply andb_prop in H as [Hc Hr]. rewrite Hc. now rewrite IH.
Qed.

Lemma replaceAll_fixed c d s :
  forallb (fun x => negb (N.eqb x c)) s = true -> replaceAll c d s = s.
Proof.
  unfold replaceAll. induction s as [|x r IH]; simpl; [reflexivity|].
  intros H. apply andb_prop in H as [Hx Hr].
  apply negb_true_iff in Hx. rewrite Hx. now rewrite IH.
Qed.

(** [sanitizeText] leaves plain text to [trim]. *)
Lemma sanitizeText_plain s : plainText s = true -> sanitizeText s = trim s.
Proof.
  intros H. unfold sanitizeText.
  assert (Hall : forall c, In c s -> plainChar c = true)
    by (now apply forallb_forall).
  assert (Hq : forallb (fun x => negb (N.eqb x dquote)) s = true).
  { apply forallb_forall. intros c Hc. apply Hall in Hc.
    unfold plainChar in Hc. now destruct (N.eqb c dquote). }
  assert (Hb : forallb (fun x => negb (isSquareBracket x)) s = true).
  { apply forallb_forall. intros c Hc. apply Hall in Hc.
    unfold plainChar in Hc. destruct (isSquareBracket c); [|reflexivity].
    now rewrite andb_false_r in Hc. }
  assert (Hp : forallb (fun x => negb (isParenthesis x)) s = true).
  { apply forallb_forall. intros c Hc. apply Hall in Hc.
    unfold plainChar in Hc. destruct (isParenthesis c); [|reflexivity].
    now rewrite andb_false_r in Hc. }
  rewrite (replaceAll_fixed _ _ _ Hq), (removeAll_fixed _ _ Hb).
  now rewrite (removeAll_fixed _ _ Hp).
Qed.

(** What [sanitizeText] returns is plain. *)
Lemma sanitizeText_is_plain s : plainText (sanitizeText s) = true.
Proof.
  unfold plainText. apply forallb_forall. intros c Hc.
  unfold sanitizeText in Hc. apply trim_In in Hc.
  unfold removeAll in Hc.
  apply filter_In in Hc as [Hc Hpar]. apply filter_In in Hc as [Hc Hsq].
  unfold replaceAll in Hc. apply in_map_iff in Hc as [x [Hx _]].
  unfold plainChar. rewrite Hsq, Hpar, !andb_true_r.
  destruct (N.eqb x dquote) eqn:E; subst c; [reflexivity|].
  now rewrite E.
Qed.

(** C6. [sanitizeText] is idempotent: sanitizing a sanitized text changes
    nothing, for every string. *)
Theorem sanitizeText_idempotent (s : jsstring) :
  sanitizeText (sanitizeText s) = sanitizeText s.
Proof.
  rewrite (sanitizeText_plain (sanitizeText s)) by apply sanitizeText_is_plain.
  unfold sanitizeText. apply trim_idempotent.
Qed.

(** ** Diagram code generation *)

Lemma beginsWith_refl s : beginsWith s s.
Proof. exists []. now rewrite app_nil_r. Qed.

Lemma beginsWith_app pre s t : beginsWith pre s -> beginsWith pre (s ++ t).
Proof. intros [r ->]. exists (r ++ t). now rewrite app_assoc. Qed.

Lemma beginsWith_trans a b c : beginsWith a b -> beginsWith b c -> beginsWith a c.
Proof. intros [r ->] [r' ->]. exists (r ++ r'). now rewrite app_assoc. Qed.

(** A loop whose body only appends to the code keeps what was written. *)
Lemma forEachFrom_beginsWith {A : Type} (f : jsstring -> A -> nat -> jsstring) :
  (forall code x i, beginsWith code (f code x i)) ->
  forall a i code, beginsWith code (forEachFrom f i a code).
Proof.
  intros Hf a. induction a as [|x r IH]; intros i code; simpl.
  - apply beginsWith_refl.
  - eapply beginsWith_trans; [apply Hf | apply IH].
Qed.

Lemma forEach_beginsWith {A : Type} (f : jsstring -> A -> nat -> jsstring) :
  (forall code x i, beginsWith code (f code x i)) ->
  forall pre a code, beginsWith pre code -> beginsWith pre (forEach f a code).
Proof.
  intros Hf pre a code H. eapply beginsWith_trans; [exact H|].
  now apply forEachFrom_beginsWith.
Qed.

Lemma fold_left_beginsWith {A : Type} (f : jsstring -> A -> jsstring) :
  (forall code x, beginsWith code (f code x)) ->
  forall pre a code, beginsWith pre code -> beginsWith pre (fold_left f a code).
Proof.
  intros Hf pre a. induction a as [|x r IH]; intros code H; simpl; [exact H|].
  apply IH. eapply beginsWith_trans; [exact H | apply Hf].
Qed.

(** The loop of the mind map writes one line for each key point. *)
Lemma forEachFrom_leaves points : forall i code,
  forEachFrom (fun code point (_ : nat) => code ++ lit "    " ++ nodeText point ++ eol)
    i points code
  = code ++ concat (List.map leafLine points).
Proof.
  induction points as [|x r IH]; intros i code; cbn [forEachFrom List.map concat].
  - now rewrite app_nil_r.
  - rewrite IH. unfold leafLine. now rewrite <- !app_assoc.
Qed.

Lemma splitOn_first (q : char -> bool) h c rest :
  forallb (fun x => negb (q x)) h = true -> q c = true ->
  fst (splitOn q (h ++ c :: rest)) = h.
Proof.
  intros Hh Hc. induction h as [|x h IH]; simpl in *.
  - destruct (splitOn q rest). now rewrite Hc.
  - apply andb_prop in Hh as [Hx Hh]. specialize (IH Hh).
    destruct (splitOn q (h ++ c :: rest)) as [a t]. simpl in IH. subst a.
    apply negb_true_iff in Hx. now rewrite Hx.
Qed.

Section CodegenProperties.
Context {CM : CaseMapping}.

Ltac appends :=
  repeat first
    [ apply beginsWith_refl
    | apply forEach_beginsWith;
        [ intros; repeat (first [ apply beginsWith_refl | apply beginsWith_app ]);
          try (destruct (Nat.ltb _ _);
               repeat (first [ apply beginsWith_refl | apply beginsWith_app ]))
        | ]
    | apply fold_left_beginsWith;
        [ intros; repeat (first [ apply beginsWith_refl | apply beginsWith_app ]) | ]
    | apply beginsWith_app ].

Lemma partnershipChart_begins content heading :
  beginsWith
    (lit "graph LR" ++ eol ++ lit "    A((" ++ dq ++ sanitizeText heading ++ dq ++ lit "))" ++ eol)
    (partnershipChart content heading).
Proof.
  unfold partnershipChart. apply beginsWith_app. apply forEach_beginsWith.
  - intros. rewrite !app_assoc. appends.
  - rewrite <- !app_assoc. apply beginsWith_refl.
Qed.

Lemma marketChart_begins content heading :
  beginsWith (lit "graph TD" ++ eol) (marketChart content heading).
Proof. unfold marketChart. appends. Qed.

Lemma comparisonChart_begins content :
  beginsWith (lit "graph TB" ++ eol) (comparisonChart content).
Proof. unfold comparisonChart. appends. Qed.

Lemma sequenceChart_begins content :
  beginsWith (lit "graph TD" ++ eol) (sequenceChart content).
Proof. unfold sequenceChart. appends. Qed.

Lemma mindmap_lines points heading :
  mindmap points heading
  = lit "mindmap" ++ eol ++ lit "  root((" ++ sanitizeText heading ++ lit "))" ++ eol
    ++ concat (List.map leafLine points).
Proof.
  unfold mindmap, forEach. rewrite forEachFrom_leaves. now rewrite <- !app_assoc.
Qed.

(** With no keyword of the first four categories in the content, the
    function reaches its last part. *)
Lemma generateMermaidCode_default content heading :
  containsKeywords content partnershipKeywords = false ->
  containsKeywords content marketKeywords = false ->
  containsKeywords content competitiveKeywords = false ->
  containsKeywords content sequenceKeywords = false ->
  generateMermaidCode content heading =
    if Nat.ltb 0 (length (keyPoints content))
    then mindmap (keyPoints content) heading
    else placeholderDiagram.
Proof. intros H1 H2 H3 H4. unfold generateMermaidCode. now rewrite H1, H2, H3, H4. Qed.

(** In the default branch, content without a usable sentence gives the
    placeholder node. *)
Lemma default_branch_placeholder content heading :
  containsKeywords content partnershipKeywords = false ->
  containsKeywords content marketKeywords = false ->
  containsKeywords content competitiveKeywords = false ->
  containsKeywords content sequenceKeywords = false ->
  keyPoints content = [] ->
  generateMermaidCode content heading = placeholderDiagram.
Proof.
  intros H1 H2 H3 H4 Hk. rewrite generateMermaidCode_default by assumption.
  now rewrite Hk.
Qed.

Lemma existsb_contains text keywords keyword :
  In keyword keywords ->
  includes (toLowerCase text) (toLowerCase keyword) = true ->
  containsKeywords text keywords = true.
Proof.
  intros Hin Hinc. unfold containsKeywords. apply existsb_exists.
  now exists keyword.
Qed.

End CodegenProperties.

Section DiagramClaims.
Context {CM : CaseMapping}.

Lemma header_first_line header out :
  In header diagramHeaders ->
  beginsWith (header ++ eol) out ->
  exists rest,
    out = header ++ eol ++ rest /\ firstLineOf out = header /\ out <> [].
Proof.
  intros Hin [rest Hout]. exists rest. rewrite <- app_assoc in Hout.
  assert (Hnl : forallb (fun x => negb (N.eqb nl x)) header = true).
  { unfold diagramHeaders in Hin. simpl in Hin.
    destruct Hin as [<-|[<-|[<-|[<-|[]]]]]; reflexivity. }
  split; [exact Hout|]. split.
  - rewrite Hout. unfold firstLineOf, eol. simpl app.
    now apply splitOn_first.
  - rewrite Hout. unfold eol. destruct header; discriminate.
Qed.

(** C9. For every content and heading, [generateMermaidCode] returns a
    non-empty text whose first line is one of the four headers
    [graph LR], [graph TD], [graph TB] and [mindmap]. *)
Theorem generateMermaidCode_header (content heading : jsstring) :
  exists header rest,
    In header diagramHeaders /\
    generateMermaidCode content heading = header ++ eol ++ rest /\
    firstLineOf (generateMermaidCode content heading) = header /\
    generateMermaidCode content heading <> [].
Proof.
  assert (Hgo : forall header out, In header diagramHeaders ->
            beginsWith (header ++ eol) out ->
            exists header rest, In header diagramHeaders /\
              out = header ++ eol ++ rest /\ firstLineOf out = header /\ out <> []).
  { intros header out Hin Hb.
    destruct (header_first_line header out Hin Hb) as [rest H].
    exists header, rest. now split. }
  unfold generateMermaidCode.
  destruct (containsKeywords content partnershipKeywords).
  { apply (Hgo (lit "graph LR")); [simpl; tauto|].
    eapply beginsWith_trans; [|apply partnershipChart_begins].
    exists (lit "    A((" ++ dq ++ sanitizeText heading ++ dq ++ lit "))" ++ eol).
    now rewrite <- !app_assoc. }
  destruct (containsKeywords content marketKeywords).
  { apply (Hgo (lit "graph TD")); [simpl; tauto | apply marketChart_begins]. }
  destruct (containsKeywords content competitiveKeywords).
  { apply (Hgo (lit "graph TB")); [simpl; tauto | apply comparisonChart_begins]. }
  destruct (containsKeywords content sequenceKeywords).
  { apply (Hgo (lit "graph TD")); [simpl; tauto | apply sequenceChart_begins]. }
  destruct (Nat.ltb 0 (length (keyPoints content))).
  - apply (Hgo (lit "mindmap")); [simpl; tauto|].
    rewrite mindmap_lines. rewrite app_assoc. eexists; reflexivity.
  - apply (Hgo (lit "graph TD")); [simpl; tauto|].
    unfold placeholderDiagram. rewrite app_assoc. eexists; reflexivity.
Qed.

(** The categories are tried in the order of the source and the first
    whose keywords occur in the content gives the diagram; with no keyword
    at all the mind map, or the placeholder, is given. *)
Lemma classification_order content heading :
  (containsKeywords content partnershipKeywords = true ->
   generateMermaidCode content heading = partnershipChart content heading) /\
  (containsKeywords content partnershipKeywords = false ->
   containsKeywords content marketKeywords = true ->
   generateMermaidCode content heading = marketChart content heading) /\
  (containsKeywords content partnershipKeywords = false ->
   containsKeywords content marketKeywords = false ->
   containsKeywords content competitiveKeywords = true ->
   generateMermaidCode content heading = comparisonChart content) /\
  (containsKeywords content partnershipKeywords = false ->
   containsKeywords content marketKeywords = false ->
   containsKeywords content competitiveKeywords = false ->
   containsKeywords content sequenceKeywords = true ->
   generateMermaidCode content heading = sequenceChart content) /\
  (containsKeywords content partnershipKeywords = false ->
   containsKeywords content marketKeywords = false ->
   containsKeywords content competitiveKeywords = false ->
   containsKeywords content sequenceKeywords = false ->
   generateMermaidCode content heading =
     if Nat.ltb 0 (length (keyPoints content))
     then mindmap (keyPoints content) heading
     else placeholderDiagram).
Proof.
  unfold generateMermaidCode. repeat split; intros;
    repeat match goal with H : containsKeywords _ _ = _ |- _ => rewrite H; clear H end;
    reflexivity.
Qed.

(** C5. Content that contains, whatever the case of its letters, a
    partnership keyword and a market keyword gives the partnership chart:
    a [graph LR] program whose root is the sanitized heading, and not the
    market chart. The checks are made in a fixed order, partnership,
    market, competitive, sequence, then the default, and the first that
    succeeds gives the diagram. *)
Theorem partnership_has_priority (content heading : jsstring) :
  (forall kp km : jsstring,
     In kp partnershipKeywords ->
     includes (toLowerCase content) (toLowerCase kp) = true ->
     In km marketKeywords ->
     includes (toLowerCase content) (toLowerCase km) = true ->
     generateMermaidCode content heading = partnershipChart content heading /\
     beginsWith
       (lit "graph LR" ++ eol
          ++ lit "    A((" ++ dq ++ sanitizeText heading ++ dq ++ lit "))" ++ eol)
       (generateMermaidCode content heading) /\
     generateMermaidCode content heading <> marketChart content heading) /\
  (containsKeywords content partnershipKeywords = true ->
   generateMermaidCode content heading = partnershipChart content heading) /\
  (containsKeywords content partnershipKeywords = false ->
   containsKeywords content marketKeywords = true ->
   generateMermaidCode content heading = marketChart content heading) /\
  (containsKeywords content partnershipKeywords = false ->
   containsKeywords content marketKeywords = false ->
   containsKeywords content competitiveKeywords = true ->
   generateMermaidCode content heading = comparisonChart content) /\
  (containsKeywords content partnershipKeywords = false ->
   containsKeywords content marketKeywords = false ->
   containsKeywords content competitiveKeywords = false ->
   containsKeywords content sequenceKeywords = true ->
   generateMermaidCode content heading = sequenceChart content) /\
  (containsKeywords content partnershipKeywords = false ->
   containsKeywords content marketKeywords = false ->
   containsKeywords content competitiveKeywords = false ->
   containsKeywords content sequenceKeywords = false ->
   generateMermaidCode content heading =
     if Nat.ltb 0 (length (keyPoints content))
     then mindmap (keyPoints content) heading
     else placeholderDiagram).
Proof.
  split; [|apply classification_order].
  intros kp km Hkp Hp Hkm Hm.
  assert (E : generateMermaidCode content heading = partnershipChart content heading).
  { apply classification_order. now apply existsb_contains with kp. }
  rewrite E. split; [reflexivity|]. split; [apply partnershipChart_begins|].
  intros Heq.
  destruct (partnershipChart_begins content heading) as [r1 H1].
  destruct (marketChart_begins content heading) as [r2 H2].
  rewrite Heq in H1. rewrite H1 in H2. discriminate H2.
Qed.

End DiagramClaims.

(** The priority at work: a note on a trade agreement and a market. *)
Lemma partnership_has_priority_witness :
  generateMermaidCode (CM:=BasicLatin) tradeNote tradeHeading
    = partnershipChart tradeNote tradeHeading /\
  beginsWith
    (lit "graph LR" ++ eol ++ lit "    A((" ++ dq ++ sanitizeText tradeHeading ++ dq
       ++ lit "))" ++ eol)
    (generateMermaidCode (CM:=BasicLatin) tradeNote tradeHeading) /\
  generateMermaidCode (CM:=BasicLatin) tradeNote tradeHeading
    <> marketChart (CM:=BasicLatin) tradeNote tradeHeading.
Proof.
  apply (proj1 (@partnership_has_priority BasicLatin tradeNote tradeHeading)
           (lit "agreement") (lit "market")).
  - simpl. tauto.
  - vm_compute. reflexivity.
  - simpl. tauto.
  - vm_compute. reflexivity.
Defined.

(** *** The leaves of the mind map *)

(** A sentence of at most 50 characters that is plain and trimmed is its
    own leaf text. *)
Lemma nodeText_short point :
  length point <= 50 -> plainText point = true -> trim point = point ->
  nodeText point = point.
Proof.
  intros Hlen Hplain Htrim. unfold nodeText, substring.
  replace (Nat.ltb 50 (length point)) with false
    by (symmetry; apply Nat.ltb_ge; lia).
  rewrite app_nil_r. change (skipn 0 point) with point.
  rewrite firstn_all2 by lia.
  now rewrite sanitizeText_plain.
Qed.

(** A sentence of more than 50 characters whose first 50 are plain and
    which does not start with white space is cut after 50 characters and
    given the marker [...]. *)
Lemma nodeText_long point :
  50 < length point -> plainText (firstn 50 point) = true ->
  headOutside isWhiteSpace point = true ->
  nodeText point = firstn 50 point ++ lit "...".
Proof.
  intros Hlen Hplain Hhead. unfold nodeText, substring.
  replace (Nat.ltb 50 (length point)) with true
    by (symmetry; apply Nat.ltb_lt; lia).
  change (skipn 0 point) with point. replace (50 - 0) with 50 by lia.
  rewrite sanitizeText_plain.
  - apply trim_fixed.
    + destruct point as [|c r]; [simpl in Hlen; lia|]. exact Hhead.
    + now rewrite rev_app_distr.
  - unfold plainText in *. rewrite forallb_app, Hplain. reflexivity.
Qed.

Section LeafClaims.
Context {CM : CaseMapping}.

(** C4, amended. In the default branch every key point gives one line of
    the mind map, holding [sanitizeText] of the first 50 characters of the
    sentence followed by [...] when the sentence is longer. A sentence of
    length 80 is therefore rendered as exactly its first 50 characters and
    the marker when these 50 characters hold no double quote, square
    bracket or parenthesis and the sentence does not start with white
    space; a sentence of length 40 is rendered unchanged when it holds none
    of these characters and has no white space at either end. *)
Theorem mindmap_leaf_text (content heading point : jsstring) :
  containsKeywords content partnershipKeywords = false ->
  containsKeywords content marketKeywords = false ->
  containsKeywords content competitiveKeywords = false ->
  containsKeywords content sequenceKeywords = false ->
  In point (keyPoints content) ->
  generateMermaidCode content heading = mindmap (keyPoints content) heading /\
  (exists before after,
     generateMermaidCode content heading
       = before ++ lit "    " ++ nodeText point ++ eol ++ after) /\
  (length point = 80 ->
   plainText (firstn 50 point) = true ->
   headOutside isWhiteSpace point = true ->
   nodeText point = firstn 50 point ++ lit "..." /\ length (firstn 50 point) = 50) /\
  (length point = 40 ->
   plainText point = true ->
   trim point = point ->
   nodeText point = point).
Proof.
  intros H1 H2 H3 H4 Hin.
  assert (E : generateMermaidCode content heading = mindmap (keyPoints content) heading).
  { rewrite generateMermaidCode_default by assumption.
    destruct (keyPoints content); [destruct Hin | reflexivity]. }
  split; [exact E|]. split; [|split].
  - rewrite E, mindmap_lines.
    destruct (in_split _ _ Hin) as [l1 [l2 Hsplit]]. rewrite Hsplit.
    rewrite map_app, concat_app. cbn [List.map concat]. unfold leafLine at 2.
    exists (lit "mindmap" ++ eol ++ lit "  root((" ++ sanitizeText heading ++ lit "))"
              ++ eol ++ concat (List.map leafLine l1)),
           (concat (List.map leafLine l2)).
    now rewrite <- !app_assoc.
  - intros Hlen Hplain Hhead. split.
    + apply nodeText_long; [lia | assumption | assumption].
    + rewrite length_firstn. lia.
  - intros Hlen Hplain Htrim. apply nodeText_short; [lia | assumption | assumption].
Qed.

End LeafClaims.

(** The leaves of a sentence of 80 letters and of one of 40 letters. *)
Lemma mindmap_leaf_text_witness :
  nodeText eightyLetters = repeat 97%N 50 ++ lit "..." /\
  nodeText fortyLetters = fortyLetters.
Proof.
  split.
  - assert (Hin : In eightyLetters (keyPoints eightyLetters))
      by (vm_compute; tauto).
    apply (@mindmap_leaf_text BasicLatin eightyLetters (lit "Notes") eightyLetters
             eq_refl eq_refl eq_refl eq_refl Hin); reflexivity.
  - assert (Hin : In fortyLetters (keyPoints fortyLetters))
      by (vm_compute; tauto).
    apply (@mindmap_leaf_text BasicLatin fortyLetters (lit "Notes") fortyLetters
             eq_refl eq_refl eq_refl eq_refl Hin); reflexivity.
Defined.

(** C4 as stated fails. In the default branch a sentence of length 80
    that follows a full stop, and so starts with a space, is rendered as
    49 characters and the marker, and such a sentence of length 40 as 39
    characters, because [sanitizeText] trims the leaf; a sentence of
    length 80 that opens a parenthesis loses it, and in a sentence of
    length 40 a double quote becomes a single quote. *)
Lemma leaf_truncation_counterexample :
  (containsKeywords (CM:=BasicLatin) prose partnershipKeywords = false /\
   containsKeywords (CM:=BasicLatin) prose marketKeywords = false /\
   containsKeywords (CM:=BasicLatin) prose competitiveKeywords = false /\
   containsKeywords (CM:=BasicLatin) prose sequenceKeywords = false /\
   keyPoints prose = [lit "Intro"; 32%N :: repeat 97%N 79; 32%N :: repeat 98%N 39] /\
   length (32%N :: repeat 97%N 79) = 80 /\
   length (32%N :: repeat 98%N 39) = 40 /\
   generateMermaidCode (CM:=BasicLatin) prose (lit "Notes")
     = lit "mindmap" ++ eol ++ lit "  root((Notes))" ++ eol
       ++ lit "    Intro" ++ eol
       ++ lit "    " ++ repeat 97%N 49 ++ lit "..." ++ eol
       ++ lit "    " ++ repeat 98%N 39 ++ eol /\
   nodeText (32%N :: repeat 97%N 79) <> firstn 50 (32%N :: repeat 97%N 79) ++ lit "..." /\
   nodeText (32%N :: repeat 98%N 39) <> 32%N :: repeat 98%N 39) /\
  (containsKeywords (CM:=BasicLatin) bracketed partnershipKeywords = false /\
   containsKeywords (CM:=BasicLatin) bracketed marketKeywords = false /\
   containsKeywords (CM:=BasicLatin) bracketed competitiveKeywords = false /\
   containsKeywords (CM:=BasicLatin) bracketed sequenceKeywords = false /\
   keyPoints bracketed = [bracketed] /\
   length bracketed = 80 /\
   generateMermaidCode (CM:=BasicLatin) bracketed (lit "Notes")
     = lit "mindmap" ++ eol ++ lit "  root((Notes))" ++ eol
       ++ lit "    " ++ repeat 97%N 49 ++ lit "..." ++ eol /\
   nodeText bracketed <> firstn 50 bracketed ++ lit "...") /\
  (containsKeywords (CM:=BasicLatin) quoted partnershipKeywords = false /\
   containsKeywords (CM:=BasicLatin) quoted marketKeywords = false /\
   containsKeywords (CM:=BasicLatin) quoted competitiveKeywords = false /\
   containsKeywords (CM:=BasicLatin) quoted sequenceKeywords = false /\
   keyPoints quoted = [quoted] /\
   length quoted = 40 /\
   generateMermaidCode (CM:=BasicLatin) quoted (lit "Notes")
     = lit "mindmap" ++ eol ++ lit "  root((Notes))" ++ eol
       ++ lit "    " ++ repeat 98%N 39 ++ [squote] ++ eol /\
   nodeText quoted <> quoted).
Proof.
  repeat split; try (vm_compute; reflexivity);
    intros H; vm_compute in H; discriminate H.
Qed.

(** The market branch has no fallback: without a sentence that passes its
    filter it returns the chart of the root alone, which is not the
    placeholder. *)
Lemma market_branch_root_only {CM : CaseMapping} (content heading : jsstring) :
  containsKeywords content partnershipKeywords = false ->
  containsKeywords content marketKeywords = true ->
  List.filter (fun s => nonBlank s && containsKeywords s opportunityKeywords)
    (split isSentenceEnd content) = [] ->
  generateMermaidCode content heading
    = lit "graph TD" ++ eol
      ++ lit "    M((" ++ dq ++ sanitizeText heading ++ dq ++ lit "))" ++ eol
      ++ lit "    style M fill:#7b1fa2,stroke:#4a148c,color:#fff" ++ eol
  /\ generateMermaidCode content heading <> placeholderDiagram.
Proof.
  intros Hp Hm Hnone.
  assert (E : generateMermaidCode content heading = marketChart content heading)
    by now apply classification_order.
  rewrite E. unfold marketChart. rewrite Hnone. cbn [firstn List.map forEach forEachFrom].
  rewrite <- !app_assoc. split; [reflexivity|].
  intros H. apply (f_equal (fun t => nth 13 t 0%N)) in H. discriminate H.
Qed.

(** C2 fails on the code: the content [expansion] is classified by the
    market keywords, none of its sentences passes the filter of the market
    branch, and the function returns a chart of the root alone, not the
    placeholder node. *)
Lemma market_branch_without_fragment :
  containsKeywords (CM:=BasicLatin) (lit "expansion") partnershipKeywords = false /\
  containsKeywords (CM:=BasicLatin) (lit "expansion") marketKeywords = true /\
  List.filter
    (fun s => nonBlank s && containsKeywords (CM:=BasicLatin) s opportunityKeywords)
    (split isSentenceEnd (lit "expansion")) = [] /\
  generateMermaidCode (CM:=BasicLatin) (lit "expansion") (lit "Outlook")
    = lit "graph TD" ++ eol
      ++ lit "    M((" ++ dq ++ lit "Outlook" ++ dq ++ lit "))" ++ eol
      ++ lit "    style M fill:#7b1fa2,stroke:#4a148c,color:#fff" ++ eol /\
  generateMermaidCode (CM:=BasicLatin) (lit "expansion") (lit "Outlook")
    <> placeholderDiagram.
Proof.
  repeat split; try (vm_compute; reflexivity).
  intros H; vm_compute in H; discriminate H.
Qed.

(** ** The segmenter *)

Lemma StronglySorted_snoc (l : list Z) (y : Z) :
  StronglySorted Z.lt l -> Forall (fun x => (x < y)%Z) l ->
  StronglySorted Z.lt (l ++ [y]).
Proof.
  induction l as [|x l IH]; intros Hs Hlt; simpl.
  - constructor; constructor.
  - inversion Hs as [|? ? Hs' Hx]; subst. inversion Hlt as [|? ? Hxy Hlt']; subst.
    constructor; [now apply IH|].
    apply Forall_app. split; [exact Hx | now constructor].
Qed.

Lemma StronglySorted_front (l : list Z) (y : Z) :
  StronglySorted Z.lt (l ++ [y]) -> StronglySorted Z.lt l.
Proof.
  induction l as [|x l IH]; intros Hs; simpl in *; [constructor|].
  inversion Hs as [|? ? Hs' Hx]; subst.
  constructor; [now apply IH|].
  apply Forall_app in Hx. tauto.
Qed.

Lemma setLastContent_snoc front open c :
  setLastContent (front ++ [open]) c
  = Some (front ++ [mkSection (heading open) (lineIndex open) c]).
Proof.
  unfold setLastContent. rewrite rev_app_distr. simpl. now rewrite rev_involutive.
Qed.

Lemma pop_snoc front open : pop (front ++ [open]) = front.
Proof. unfold pop. apply removelast_last. Qed.

Lemma closeSection_snoc front open c :
  closeSection (front ++ [open]) c
  = Some (if truthy c
          then front ++ [mkSection (heading open) (lineIndex open) c]
          else front).
Proof.
  unfold closeSection. destruct (truthy c).
  - apply setLastContent_snoc.
  - now rewrite pop_snoc.
Qed.

(** Closing the open section leaves filled sections only, in the same
    order and with the same anchors. *)
Lemma closeSection_filled lines front open text (bound : Z) :
  Forall filled front ->
  StronglySorted Z.lt (List.map lineIndex (front ++ [open])) ->
  Forall (fun s => (lineIndex s < bound)%Z /\ anchored lines s) (front ++ [open]) ->
  exists sections,
    closeSection (front ++ [open]) (trim text) = Some sections /\
    Forall filled sections /\
    StronglySorted Z.lt (List.map lineIndex sections) /\
    Forall (fun s => (lineIndex s < bound)%Z /\ anchored lines s) sections.
Proof.
  intros Hfront Hsorted Hall. rewrite closeSection_snoc.
  apply Forall_app in Hall as [Hallf Hopen].
  destruct (truthy (trim text)) eqn:T; eexists; (split; [reflexivity|]).
  - split; [|split].
    + apply Forall_app. split; [exact Hfront|]. constructor; [|constructor].
      unfold filled. simpl. now rewrite trim_idempotent.
    + rewrite map_app in *. exact Hsorted.
    + apply Forall_app. split; [exact Hallf|].
      inversion Hopen as [|? ? Ho _]; subst. constructor; [|constructor]. exact Ho.
  - split; [exact Hfront|]. split; [|exact Hallf].
    rewrite map_app in Hsorted. now apply StronglySorted_front in Hsorted.
Qed.

Lemma visitLine_preserves lines j line st :
  nth_error lines j = Some line ->
  scanInvariant lines j st ->
  scanInvariant lines (S j) (visitLine lines st line j).
Proof.
  intros Hnth (sections & chi & -> & Hshape & Hsorted & Hall).
  assert (Hweak : forall l,
            Forall (fun s => (lineIndex s < Z.of_nat j)%Z /\ anchored lines s) l ->
            Forall (fun s => (lineIndex s < Z.of_nat (S j))%Z /\ anchored lines s) l).
  { intros l Hl. eapply List.Forall_impl; [|exact Hl]. simpl.
    intros s [Hlt Ha]. split; [lia|exact Ha]. }
  unfold visitLine. destruct (startsWith hash line) eqn:Hhash.
  2:{ exists sections, chi. split; [reflexivity|]. split; [exact Hshape|].
      split; [exact Hsorted | now apply Hweak]. }
  set (new := mkSection (stripHeadingMarker line) (Z.of_nat j) []).
  assert (Hnew : (lineIndex new < Z.of_nat (S j))%Z /\ anchored lines new).
  { split; [simpl; lia|]. split; [simpl; lia|]. exists line. simpl.
    rewrite Nat2Z.id. now split. }
  assert (Hpush : forall l,
            Forall filled l ->
            StronglySorted Z.lt (List.map lineIndex l) ->
            Forall (fun s => (lineIndex s < Z.of_nat j)%Z /\ anchored lines s) l ->
            scanInvariant lines (S j) (Some (push l new, Z.of_nat j))).
  { intros l Hf Hs Hl. exists (push l new), (Z.of_nat j). split; [reflexivity|].
    split; [|split].
    - right. exists l, new. now split.
    - unfold push. rewrite map_app. simpl. apply StronglySorted_snoc; [exact Hs|].
      apply List.Forall_map. eapply List.Forall_impl; [|exact Hl]. simpl. tauto.
    - unfold push. apply List.Forall_app. split; [now apply Hweak|]. now constructor. }
  destruct Hshape as [[-> ->] | (front & open & -> & Hchi & Hfront)].
  - simpl. apply Hpush; [constructor | constructor | constructor].
  - destruct (chi =? -1)%Z eqn:E.
    + apply Z.eqb_eq in E. apply List.Forall_app in Hall as [_ Hopen].
      inversion Hopen as [|? ? [_ [Hpos _]] _]; subst. lia.
    + simpl negb. cbv iota.
      destruct (closeSection_filled lines front open
                  (join eol (slice lines (chi + 1) (Z.of_nat j))) (Z.of_nat j)
                  Hfront Hsorted Hall) as (secs & Hc & Hf & Hs & Ha).
      rewrite Hc. now apply Hpush.
Qed.

(** The invariant holds along the whole loop over the lines. *)
Lemma forEachFrom_visitLine lines : forall rest done_ st,
  lines = done_ ++ rest ->
  scanInvariant lines (length done_) st ->
  scanInvariant lines (length lines) (forEachFrom (visitLine lines) (length done_) rest st).
Proof.
  induction rest as [|line rest IH]; intros done_ st Hlines Hinv; simpl.
  - assert (E : length lines = length done_)
      by (rewrite Hlines, app_nil_r; reflexivity).
    rewrite E. exact Hinv.
  - specialize (IH (done_ ++ [line]) (visitLine lines st line (length done_))).
    rewrite length_app in IH. simpl in IH. rewrite Nat.add_1_r in IH.
    apply IH.
    + rewrite <- app_assoc. exact Hlines.
    + apply visitLine_preserves; [|exact Hinv].
      rewrite Hlines. rewrite nth_error_app2 by lia. now rewrite Nat.sub_diag.
Qed.

(** What the segmenter returns, for every document: it throws no
    exception; its sections are in the strict order of their lines; each
    is anchored at a line of the document that starts with [#]; and each
    is filled, but possibly one whose heading is the last line of the
    document. *)
Lemma findHeadingsAndContent_sections markdown :
  let lines := split (N.eqb nl) markdown in
  exists sections,
    findHeadingsAndContent markdown = Some sections /\
    StronglySorted Z.lt (List.map lineIndex sections) /\
    Forall (anchored lines) sections /\
    Forall (fun s => lineIndex s <> (Z.of_nat (length lines) - 1)%Z -> filled s) sections.
Proof.
  intros lines. unfold findHeadingsAndContent. fold lines. unfold forEach.
  destruct (forEachFrom_visitLine lines lines [] (Some ([], (-1)%Z)) eq_refl)
    as (sections & chi & Hrun & Hshape & Hsorted & Hall).
  { exists [], (-1)%Z. split; [reflexivity|]. split; [now left|].
    split; constructor. }
  simpl length in Hrun. rewrite Hrun.
  assert (Hanch : forall l,
            Forall (fun s => (lineIndex s < Z.of_nat (length lines))%Z /\ anchored lines s) l ->
            Forall (anchored lines) l).
  { intros l Hl. eapply List.Forall_impl; [|exact Hl]. simpl. tauto. }
  destruct Hshape as [[-> ->] | (front & open & -> & Hchi & Hfront)].
  - simpl. exists []. repeat split; constructor.
  - destruct (negb (chi =? -1)%Z && (chi <? Z.of_nat (length lines) - 1)%Z) eqn:E.
    + destruct (closeSection_filled lines front open
                  (join eol (sliceFrom lines (chi + 1))) (Z.of_nat (length lines))
                  Hfront Hsorted Hall) as (secs & Hc & Hf & Hs & Ha).
      exists secs. split; [exact Hc|]. split; [exact Hs|]. split; [now apply Hanch|].
      eapply List.Forall_impl; [|exact Hf]. simpl. tauto.
    + exists (front ++ [open]). split; [reflexivity|]. split; [exact Hsorted|].
      split; [now apply Hanch|].
      apply List.Forall_app. split.
      * eapply List.Forall_impl; [|exact Hfront]. simpl. tauto.
      * constructor; [|constructor]. intros Hne. exfalso.
        apply List.Forall_app in Hall as [_ Hopen].
        inversion Hopen as [|? ? [Hlt [Hpos _]] _]; subst.
        apply andb_false_iff in E as [E|E].
        -- apply negb_false_iff in E. apply Z.eqb_eq in E. lia.
        -- apply Z.ltb_ge in E. lia.
Qed.

(** C7. For every document the [lineIndex] values of the sections the
    segmenter returns, in the order of the result, are strictly
    increasing; the segmenter returns for every document. *)
Theorem lineIndex_strictly_increasing (markdown : jsstring) :
  exists sections,
    findHeadingsAndContent markdown = Some sections /\
    StronglySorted Z.lt (List.map lineIndex sections).
Proof.
  destruct (findHeadingsAndContent_sections markdown) as (sections & H & Hs & _).
  now exists sections.
Qed.

(** C3, amended. Every section the segmenter returns comes from a line
    that starts with [#], the line at its [lineIndex]; its heading is that
    line without the leading run of [#] and the white space after the run
    when a white-space character follows the run, and the whole line, with
    its [#], when another character or the end of the line follows. *)
Theorem heading_of_section (markdown : jsstring) :
  exists sections,
    findHeadingsAndContent markdown = Some sections /\
    forall s, In s sections ->
      exists line,
        lineAt markdown (lineIndex s) = Some line /\
        startsWith hash line = true /\
        heading s =
          match dropWhile (N.eqb hash) line with
          | c :: _ => if isWhiteSpace c then headingText line else line
          | [] => line
          end.
Proof.
  destruct (findHeadingsAndContent_sections markdown) as (sections & H & _ & Ha & _).
  exists sections. split; [exact H|]. intros s Hin.
  rewrite List.Forall_forall in Ha. destruct (Ha s Hin) as [Hpos (line & Hl & Hh & Hs)].
  exists line. split; [|split; [exact Hh|]].
  - unfold lineAt. replace (lineIndex s <? 0)%Z with false; [exact Hl|].
    symmetry. apply Z.ltb_ge. exact Hpos.
  - rewrite Hs. unfold stripHeadingMarker, headingText. rewrite Hh.
    destruct (dropWhile (N.eqb hash) line); reflexivity.
Qed.

(** C3 as stated fails: the line [#Title] gives a section whose heading is
    [#Title], not [Title]. *)
Lemma heading_marker_counterexample :
  findHeadingsAndContent (lit "#Title" ++ eol ++ lit "body")
    = Some [mkSection (lit "#Title") 0 (lit "body")] /\
  lineAt (lit "#Title" ++ eol ++ lit "body") 0 = Some (lit "#Title") /\
  headingText (lit "#Title") = lit "Title" /\
  heading (mkSection (lit "#Title") 0 (lit "body")) <> headingText (lit "#Title") /\
  In hash (heading (mkSection (lit "#Title") 0 (lit "body"))).
Proof.
  repeat split; try (vm_compute; reflexivity).
  - intros H; vm_compute in H; discriminate H.
  - vm_compute. tauto.
Qed.

(** C1 fails on the code: a document that ends with its heading line
    gives a section for that heading, with empty content. *)
Lemma trailing_heading_kept :
  findHeadingsAndContent (lit "# A") = Some [mkSection (lit "A") 0 []] /\
  findHeadingsAndContent (lit "# A" ++ eol ++ lit "text" ++ eol ++ lit "## B")
    = Some [mkSection (lit "A") 0 (lit "text"); mkSection (lit "B") 2 []] /\
  trim (content (mkSection (lit "B") 2 [])) = [].
Proof. repeat split; vm_compute; reflexivity. Qed.

(** A heading followed by at least one more line, be it empty, is dropped
    when no text follows it. *)
Lemma trailing_heading_dropped :
  findHeadingsAndContent (lit "# A" ++ eol) = Some [] /\
  findHeadingsAndContent (lit "# A" ++ eol ++ lit "# B" ++ eol ++ lit "text")
    = Some [mkSection (lit "B") 1 (lit "text")].
Proof. split; vm_compute; reflexivity. Qed.

(** All sections are filled but possibly the one of a heading on the last
    line of the document. *)
Lemma sections_filled_before_last_line (markdown : jsstring) :
  exists sections,
    findHeadingsAndContent markdown = Some sections /\
    forall s, In s sections ->
      lineIndex s <> (Z.of_nat (length (split (N.eqb nl) markdown)) - 1)%Z ->
      truthy (trim (content s)) = true.
Proof.
  destruct (findHeadingsAndContent_sections markdown) as (sections & H & _ & _ & Hf).
  exists sections. split; [exact H|]. intros s Hin Hne.
  rewrite List.Forall_forall in Hf. now apply (Hf s Hin).
Qed.

(** ** Title inference *)

(** Without a line that starts with [#] and white space the expression
    matches nowhere. *)
Lemma matchHeading_none : forall s b,
  hasHeadingStart b s = false -> matchHeading b s = None.
Proof.
  induction s as [|c r IH]; intros b H; simpl in *; [reflexivity|].
  apply orb_false_iff in H as [Hhere Hrest]. rewrite (IH _ Hrest).
  destruct b; [|reflexivity]. simpl in Hhere.
  destruct (N.eqb c hash); [|reflexivity]. simpl in Hhere.
  destruct r as [|w r']; [reflexivity|]. simpl. now rewrite Hhere.
Qed.

(** The search passes over text without such a line. *)
Lemma matchHeading_skip rest :
  startsWith hash rest = true ->
  forall pre b,
    hasHeadingStart b pre = false ->
    matchHeading b (pre ++ rest) = matchHeading (lineStartAfter b pre) rest.
Proof.
  intros Hrest. induction pre as [|c r IH]; intros b H; [reflexivity|].
  simpl in H. apply orb_false_iff in H as [Hhere Hr].
  cbn [app matchHeading lineStartAfter]. rewrite (IH _ Hr).
  destruct b; [|reflexivity]. simpl in Hhere.
  unfold matchHeadingAt. destruct (N.eqb c hash); [|reflexivity]. simpl in Hhere.
  destruct r as [|w r']; simpl.
  - destruct rest as [|x rest']; [discriminate Hrest|]. simpl in Hrest.
    apply N.eqb_eq in Hrest. subst x. reflexivity.
  - now rewrite Hhere.
Qed.

(** On a heading line the expression matches and group 1 is the text
    after the white space. *)
Lemma matchHeadingAt_line ws text post :
  ws <> [] ->
  forallb isWhiteSpace ws = true ->
  text <> [] ->
  headOutside isWhiteSpace text = true ->
  forallb notLineTerminator text = true ->
  atLineEnd post = true ->
  matchHeadingAt (hash :: ws ++ text ++ post) = Some text.
Proof.
  intros Hws Hall Htext Hhead Hnolt Hpost.
  destruct text as [|c t]; [contradiction|]. simpl in Hhead.
  unfold matchHeadingAt. rewrite N.eqb_refl.
  rewrite takeWhile_app; [|exact Hall | exact Hhead].
  destruct ws as [|w ws']; [contradiction|].
  cbn [length giveBack].
  replace (skipn (S (length ws')) ((w :: ws') ++ (c :: t) ++ post))
    with ((c :: t) ++ post).
  2:{ change (S (length ws')) with (length (w :: ws')).
      rewrite skipn_app, skipn_all, Nat.sub_diag. reflexivity. }
  cbn [app].
  assert (Hc : isLineTerminator c = false).
  { destruct (isLineTerminator c) eqn:E; [|reflexivity].
    apply lineTerminator_isWhiteSpace in E. rewrite E in Hhead. discriminate. }
  rewrite Hc. f_equal.
  change (c :: t ++ post) with ((c :: t) ++ post).
  apply (takeWhile_app notLineTerminator); [exact Hnolt|].
  destruct post as [|x post']; [reflexivity|]. simpl in *.
  unfold notLineTerminator. now rewrite Hpost.
Qed.

(** Where the code does what its comments say. Title inference returns
    the trimmed text of the first line that starts with a single [#]
    followed by white space of that line, when text follows it on the
    line and no earlier line starts with [#] followed by white space, a
    line break included. When no line starts with [#] followed by white
    space, it returns the trimmed first line, cut to 47 characters and the
    marker [...] when longer than 50, and the default title when the
    trimmed first line is empty. *)
Lemma title_inference :
  (forall pre ws text post : jsstring,
     lineStartAfter true pre = true ->
     hasHeadingStart true pre = false ->
     ws <> [] ->
     forallb (fun c => isWhiteSpace c && notLineTerminator c) ws = true ->
     text <> [] ->
     headOutside isWhiteSpace text = true ->
     forallb notLineTerminator text = true ->
     atLineEnd post = true ->
     generateTitleFromContent (pre ++ hash :: ws ++ text ++ post) = trim text) /\
  (forall content : jsstring,
     hasHeadingStart true content = false ->
     generateTitleFromContent content =
       let firstLine := trim (firstLineOf content) in
       match firstLine with
       | [] => defaultTitle
       | _ :: _ =>
           if Nat.ltb 50 (length firstLine)
           then firstn 47 firstLine ++ lit "..."
           else firstLine
       end).
Proof.
  split.
  - intros pre ws text post Hstart Hpre Hws Hall Htext Hhead Hnolt Hpost.
    unfold generateTitleFromContent.
    rewrite matchHeading_skip by (reflexivity || assumption).
    rewrite Hstart. cbn [matchHeading].
    rewrite matchHeadingAt_line; try assumption; [reflexivity|].
    apply forallb_forall. intros c Hc.
    rewrite forallb_forall in Hall. apply Hall in Hc.
    now apply andb_prop in Hc.
  - intros content Hnone. unfold generateTitleFromContent.
    rewrite matchHeading_none by assumption. unfold firstLineOf. cbv zeta.
    destruct (trim (fst (splitOn (N.eqb nl) content))) as [|c r]; reflexivity.
Qed.

(** The title of a document with a heading on its second line, and of one
    without a heading. *)
Example title_of_draft :
  generateTitleFromContent draft = lit "Quarterly Report" /\
  generateTitleFromContent (lit "Summary of findings for Q3")
    = lit "Summary of findings for Q3".
Proof.
  split.
  - apply (proj1 title_inference (lit "Draft of May" ++ eol) [32%N]
             (lit "Quarterly Report") (eol ++ lit "body"));
      reflexivity || discriminate.
  - apply (proj2 title_inference (lit "Summary of findings for Q3")).
    reflexivity.
Qed.

(** The white space the expression asks for after the [#] may be the line
    break itself. A document that starts with a [#] alone on its line gets
    as title the text of the line after it, whatever that line is and
    whatever heading follows. *)
Lemma title_after_bare_marker (text post : jsstring) :
  text <> [] ->
  headOutside isWhiteSpace text = true ->
  forallb notLineTerminator text = true ->
  atLineEnd post = true ->
  generateTitleFromContent (hash :: nl :: text ++ post) = trim text.
Proof.
  intros Htext Hhead Hnolt Hpost. unfold generateTitleFromContent.
  cbn [matchHeading].
  change (hash :: nl :: text ++ post) with (hash :: [nl] ++ text ++ post).
  rewrite matchHeadingAt_line; try assumption; [reflexivity | discriminate | reflexivity].
Qed.

(** C8, a defect of the code. The comment of the source reads: extract the
    first heading if available. A [#] alone on its line is followed by a
    line break, which the expression [/^#\s+(.+)$/m] takes for the white
    space after the marker: the title is then the text of the next line.
    In [bareMarkerDraft] the title is [body], the text of a line that is no
    heading, where the first line made of [#], a space and text gives
    [Real Title]; in [bareMarkerPair] the title [# Real] keeps the marker
    of the heading. *)
Theorem title_from_line_after_marker :
  generateTitleFromContent bareMarkerDraft = lit "body" /\
  inferTitle bareMarkerDraft = lit "Real Title" /\
  generateTitleFromContent bareMarkerPair = lit "# Real" /\
  inferTitle bareMarkerPair = lit "Real".
Proof. repeat split; vm_compute; reflexivity. Qed.

(** ** Report persistence *)

Section SaveReportProperties.
Import Firestore.
Variable invalidDb : FirestoreError.

Lemma saveReport_accepted (report : object) (w : World) :
  saveReport invalidDb true Accepted report w =
    (inr ("reports", length (documents w "reports")),
     mkWorld (clock w) (S (S (reads w)))
       (<["reports" := documents w "reports" ++ [stamped report w]]> (collections w))).
Proof. reflexivity. Qed.

Lemma saveReport_refused (error : FirestoreError) (report : object) (w : World) :
  saveReport invalidDb true (Refused error) report w =
    (inl error, mkWorld (clock w) (S (S (reads w))) (collections w)).
Proof. reflexivity. Qed.

Lemma saveReport_without_db (answer : addDocAnswer) (report : object) (w : World) :
  saveReport invalidDb false answer report w = (inl invalidDb, w).
Proof. reflexivity. Qed.

(** The two dates the caller supplies are overwritten. *)
Lemma stamped_overwrites (created updated : value) (report : object) (w : World) :
  stamped (<["createdAt" := created]> (<["updatedAt" := updated]> report)) w
  = stamped report w.
Proof.
  unfold stamped.
  rewrite insert_insert_eq.
  rewrite (insert_insert_ne _ "createdAt" "updatedAt") by discriminate.
  now rewrite insert_insert_eq.
Qed.

(** C10, amended. When [db] is set and the database accepts the write,
    [saveReport] adds one document to the collection [reports] and
    resolves to its reference. The [createdAt] and [updatedAt] of the
    document are the times the clock shows at the two readings made during
    the call, whatever the caller supplied for them; every other property,
    [userId], [title], [content] and [animations] among them, is stored as
    given, and no other collection changes. When [db] is not set the call
    fails with the error of [collection] and changes nothing; when the
    database refuses the write the call fails with its error and no
    collection changes. In every case a report that differs in the two
    dates only gives the same outcome. *)
Theorem saveReport_timestamps (dbOk : bool) (answer : addDocAnswer)
    (report : object) (w : World) :
  (dbOk = true -> answer = Accepted ->
   exists stored : object,
     fst (saveReport invalidDb dbOk answer report w)
       = inr ("reports", length (documents w "reports")) /\
     documents (snd (saveReport invalidDb dbOk answer report w)) "reports"
       = documents w "reports" ++ [stored] /\
     stored !! "createdAt" = Some (VDate (clock w (reads w))) /\
     stored !! "updatedAt" = Some (VDate (clock w (S (reads w)))) /\
     stored !! "userId" = report !! "userId" /\
     stored !! "title" = report !! "title" /\
     stored !! "content" = report !! "content" /\
     stored !! "animations" = report !! "animations" /\
     (forall key : string,
        key <> "createdAt" -> key <> "updatedAt" -> stored !! key = report !! key) /\
     (forall path : string,
        path <> "reports" ->
        documents (snd (saveReport invalidDb dbOk answer report w)) path
          = documents w path)) /\
  (dbOk = false ->
   saveReport invalidDb dbOk answer report w = (inl invalidDb, w)) /\
  (forall error : FirestoreError,
     dbOk = true -> answer = Refused error ->
     fst (saveReport invalidDb dbOk answer report w) = inl error /\
     forall path : string,
       documents (snd (saveReport invalidDb dbOk answer report w)) path
         = documents w path) /\
  (forall created updated : value,
     saveReport invalidDb dbOk answer
       (<["createdAt" := created]> (<["updatedAt" := updated]> report)) w
     = saveReport invalidDb dbOk answer report w).
Proof.
  split; [|split; [|split]].
  - intros -> ->. exists (stamped report w).
    assert (Hother : forall key : string,
              key <> "createdAt" -> key <> "updatedAt" ->
              stamped report w !! key = report !! key).
    { intros key Hc Hu. unfold stamped. rewrite lookup_insert_ne by congruence.
      now rewrite lookup_insert_ne by congruence. }
    rewrite saveReport_accepted. cbn [fst snd].
    split; [reflexivity|]. split; [|split; [|split; [|repeat split]]].
    + unfold documents at 1. cbn [collections]. now rewrite lookup_insert_eq.
    + unfold stamped. rewrite lookup_insert_ne by discriminate. apply lookup_insert_eq.
    + unfold stamped. apply lookup_insert_eq.
    + apply Hother; discriminate.
    + apply Hother; discriminate.
    + apply Hother; discriminate.
    + apply Hother; discriminate.
    + exact Hother.
    + intros path Hpath. unfold documents at 1. cbn [collections].
      rewrite lookup_insert_ne by congruence. reflexivity.
  - intros ->. apply saveReport_without_db.
  - intros error -> ->. rewrite saveReport_refused. cbn [fst snd].
    split; reflexivity.
  - intros created updated. destruct dbOk; [|reflexivity].
    destruct answer as [|error].
    + rewrite !saveReport_accepted. now rewrite stamped_overwrites.
    + now rewrite !saveReport_refused.
Qed.

End SaveReportProperties.

(** A report saved in a world that holds one report: the new document is
    the second of the collection, with the two times of the clock in place
    of the dates of the caller. *)
Lemma saveReport_timestamps_witness :
  exists stored : Firestore.object,
    fst (Firestore.saveReport dbNotSet true Firestore.Accepted reportToSave busyWorld)
      = inr ("reports", 1) /\
    Firestore.documents
      (snd (Firestore.saveReport dbNotSet true Firestore.Accepted reportToSave busyWorld))
      "reports"
      = [<["title" := Firestore.VString (lit "Q2")]> ∅; stored] /\
    stored !! "createdAt" = Some (Firestore.VDate 1007) /\
    stored !! "updatedAt" = Some (Firestore.VDate 1008) /\
    stored !! "title" = Some (Firestore.VString (lit "Q3")) /\
    stored !! "userId" = Some (Firestore.VString (lit "u1")).
Proof.
  destruct (proj1 (saveReport_timestamps dbNotSet true Firestore.Accepted
                     reportToSave busyWorld) eq_refl eq_refl)
    as (stored & Href & Hdocs & Hc & Hu & Huser & Htitle & _).
  exists stored. split; [exact Href|]. split; [exact Hdocs|].
  split; [exact Hc|]. split; [exact Hu|]. split.
  - rewrite Htitle. reflexivity.
  - rewrite Huser. reflexivity.
Defined.

(** C10 as stated fails: a call does not always store the report. When
    the database refuses the write, and when [db] is not set, the call
    fails and the collection holds what it held before: the report was
    not persisted. *)
Lemma saveReport_failure_counterexample :
  fst (Firestore.saveReport dbNotSet true (Firestore.Refused permissionDenied)
         reportToSave quietWorld) = inl permissionDenied /\
  Firestore.documents
    (snd (Firestore.saveReport dbNotSet true (Firestore.Refused permissionDenied)
            reportToSave quietWorld)) "reports" = [] /\
  fst (Firestore.saveReport dbNotSet false Firestore.Accepted reportToSave quietWorld)
    = inl dbNotSet /\
  Firestore.documents
    (snd (Firestore.saveReport dbNotSet false Firestore.Accepted reportToSave quietWorld))
    "reports" = [] /\
  ~ (forall (dbOk : bool) (answer : Firestore.addDocAnswer),
       exists stored : Firestore.object,
         Firestore.documents
           (snd (Firestore.saveReport dbNotSet dbOk answer reportToSave quietWorld))
           "reports" = [stored] /\
         stored !! "title" = reportToSave !! "title").
Proof.
  split; [reflexivity|]. split; [reflexivity|]. split; [reflexivity|].
  split; [reflexivity|].
  intros H. destruct (H true (Firestore.Refused permissionDenied)) as (stored & Hdocs & _).
  discriminate Hdocs.
Qed.

(** ** The scenarios of the specification *)

Example basic_segmentation :
  findHeadingsAndContent
    (lit "# A" ++ eol ++ lit "hello" ++ eol ++ lit "# B" ++ eol ++ lit "world" ++ eol)
  = Some [mkSection (lit "A") 0 (lit "hello"); mkSection (lit "B") 2 (lit "world")].
Proof. vm_compute. reflexivity. Qed.

Example empty_section_elision :
  findHeadingsAndContent (lit "# A" ++ eol ++ lit "# B" ++ eol ++ lit "text")
  = Some [mkSection (lit "B") 1 (lit "text")].
Proof. vm_compute. reflexivity. Qed.

Example fallback_diagram :
  generateMermaidCode (CM:=BasicLatin)
    (lit "random unrelated sentence with no keywords.") (lit "Notes")
  = lit "mindmap" ++ eol ++ lit "  root((Notes))" ++ eol
    ++ lit "    random unrelated sentence with no keywords" ++ eol.
Proof. vm_compute. reflexivity. Qed.

Example placeholder_for_blank_content :
  generateMermaidCode (CM:=BasicLatin) (lit " . ") (lit "Notes") = placeholderDiagram.
Proof. vm_compute. reflexivity. Qed.

Example title_from_heading :
  generateTitleFromContent (lit "# Quarterly Report" ++ eol ++ lit "body")
  = lit "Quarterly Report".
Proof. vm_compute. reflexivity. Qed.

Example title_from_first_line :
  generateTitleFromContent (lit "Summary of findings for Q3")
  = lit "Summary of findings for Q3".
Proof. vm_compute. reflexivity. Qed.

Example title_truncated :
  generateTitleFromContent (repeat 120%N 60) = repeat 120%N 47 ++ lit "...".
Proof. vm_compute. reflexivity. Qed.

Example title_of_empty_document :
  generateTitleFromContent [] = lit "Untitled Report".
Proof. vm_compute. reflexivity. Qed.

(* ================================================================== *)
(** * Further properties *)
(* ================================================================== *)

(** ** The segmenter: what each section holds *)

Lemma untilHeading_firstn : forall (rest : list jsstring) (n : nat),
  (forall i l, i < n -> nth_error rest i = Some l -> startsWith hash l = false) ->
  (length rest <= n \/
   exists l, nth_error rest n = Some l /\ startsWith hash l = true) ->
  untilHeading rest = firstn n rest.
Proof.
  induction rest as [|line r IH]; intros n Hno Hend.
  - now rewrite firstn_nil.
  - destruct n as [|n].
    + destruct Hend as [Hlen | [l [Hl Hh]]]; [simpl in Hlen; lia|].
      simpl in Hl. injection Hl as ->. simpl. now rewrite Hh.
    + simpl. rewrite (Hno 0 line) by (simpl; auto; lia).
      f_equal. apply IH.
      * intros i l Hi Hl. apply (Hno (S i) l); [lia | exact Hl].
      * destruct Hend as [Hlen | Hex]; [left; simpl in Hlen; lia | right; exact Hex].
Qed.

Lemma slice_between {A : Type} (a : list A) (c j : nat) :
  c < j -> j <= length a ->
  slice a (Z.of_nat c + 1) (Z.of_nat j) = firstn (j - S c) (skipn (S c) a).
Proof.
  intros Hcj Hj. unfold slice, sliceIndex.
  replace (Z.of_nat c + 1 <? 0)%Z with false by (symmetry; apply Z.ltb_ge; lia).
  replace (Z.of_nat j <? 0)%Z with false by (symmetry; apply Z.ltb_ge; lia).
  rewrite !Z.min_l by lia.
  replace (Z.to_nat (Z.of_nat j - (Z.of_nat c + 1))) with (j - S c) by lia.
  replace (Z.to_nat (Z.of_nat c + 1)) with (S c) by lia.
  reflexivity.
Qed.

Lemma sliceFrom_after {A : Type} (a : list A) (c : nat) :
  c < length a ->
  sliceFrom a (Z.of_nat c + 1) = skipn (S c) a.
Proof.
  intros Hc. unfold sliceFrom. rewrite slice_between by lia.
  apply firstn_all2. rewrite length_skipn. lia.
Qed.

(** The text between a heading and the next heading, as the loop takes it,
    is the body of the heading. *)
Lemma body_at_next_heading lines c j lj :
  c < j ->
  nth_error lines j = Some lj -> startsWith hash lj = true ->
  (forall i l, c < i < j -> nth_error lines i = Some l -> startsWith hash l = false) ->
  trim (join eol (slice lines (Z.of_nat c + 1) (Z.of_nat j))) = bodyText lines c.
Proof.
  intros Hcj Hj Hh Hno.
  assert (Hlen : j < length lines) by (apply nth_error_Some; congruence).
  rewrite slice_between by lia. unfold bodyText, bodyLines.
  rewrite (untilHeading_firstn (skipn (S c) lines) (j - S c)); [reflexivity | | ].
  - intros i l Hi Hl. rewrite nth_error_skipn in Hl.
    apply (Hno (S c + i) l); [lia | exact Hl].
  - right. exists lj. rewrite nth_error_skipn.
    replace (S c + (j - S c)) with j by lia. now split.
Qed.

Lemma body_at_end lines c :
  c < length lines ->
  (forall i l, c < i < length lines -> nth_error lines i = Some l ->
               startsWith hash l = false) ->
  trim (join eol (sliceFrom lines (Z.of_nat c + 1))) = bodyText lines c.
Proof.
  intros Hc Hno. rewrite sliceFrom_after by exact Hc. unfold bodyText, bodyLines.
  rewrite (untilHeading_firstn (skipn (S c) lines) (length lines - S c)).
  - rewrite firstn_all2; [reflexivity|]. rewrite length_skipn. lia.
  - intros i l Hi Hl. rewrite nth_error_skipn in Hl.
    apply (Hno (S c + i) l); [lia | exact Hl].
  - left. rewrite length_skipn. lia.
Qed.

Lemma sectionAt_not_heading lines i :
  (forall l, nth_error lines i = Some l -> startsWith hash l = false) ->
  sectionAt lines i = [].
Proof.
  intros H. unfold sectionAt. destruct (nth_error lines i) as [l|]; [|reflexivity].
  now rewrite (H l eq_refl).
Qed.

Lemma sectionAt_heading lines c line :
  nth_error lines c = Some line -> startsWith hash line = true ->
  sectionAt lines c
  = if truthy (bodyText lines c) || Nat.eqb (S c) (length lines)
    then [mkSection (stripHeadingMarker line) (Z.of_nat c) (bodyText lines c)]
    else [].
Proof. intros Hl Hh. unfold sectionAt. now rewrite Hl, Hh. Qed.

Lemma flat_map_sectionAt_none lines : forall n a,
  (forall i l, a <= i < a + n -> nth_error lines i = Some l ->
               startsWith hash l = false) ->
  flat_map (sectionAt lines) (seq a n) = [].
Proof.
  induction n as [|n IH]; intros a H; [reflexivity|].
  simpl. rewrite sectionAt_not_heading.
  - apply IH. intros i l Hi. apply H. lia.
  - intros l. apply H. lia.
Qed.

(** The sections up to a heading at [j], given those up to the heading
    before it at [c]. *)
Lemma flat_map_sectionAt_step lines c j :
  c < j ->
  (forall i l, c < i < j -> nth_error lines i = Some l -> startsWith hash l = false) ->
  flat_map (sectionAt lines) (seq 0 j)
  = flat_map (sectionAt lines) (seq 0 c) ++ sectionAt lines c.
Proof.
  intros Hcj Hno.
  assert (E : seq 0 j = seq 0 c ++ c :: seq (S c) (j - S c)).
  { replace j with (c + S (j - S c)) at 1 by lia. rewrite seq_app. reflexivity. }
  rewrite E, flat_map_app. cbn [flat_map].
  rewrite (flat_map_sectionAt_none lines (j - S c) (S c)).
  - now rewrite app_nil_r.
  - intros i l Hi. apply Hno. lia.
Qed.

(** A property of the loop variable that every step keeps holds after a
    [forEach]. *)
Lemma forEachFrom_invariant {A S : Type} (f : S -> A -> nat -> S)
    (P : nat -> S -> Prop) (a : list A) :
  (forall j x st, nth_error a j = Some x -> P j st -> P (Datatypes.S j) (f st x j)) ->
  forall rest done_ st,
    a = done_ ++ rest ->
    P (length done_) st ->
    P (length a) (forEachFrom f (length done_) rest st).
Proof.
  intros Hstep. induction rest as [|x rest IH]; intros done_ st Ha Hinv; simpl.
  - assert (E : length a = length done_)
      by (rewrite Ha, app_nil_r; reflexivity).
    rewrite E. exact Hinv.
  - specialize (IH (done_ ++ [x]) (f st x (length done_))).
    rewrite length_app in IH. simpl in IH. rewrite Nat.add_1_r in IH.
    apply IH.
    + rewrite <- app_assoc. exact Ha.
    + apply Hstep; [|exact Hinv].
      rewrite Ha. rewrite nth_error_app2 by lia. now rewrite Nat.sub_diag.
Qed.

Lemma forEach_invariant {A S : Type} (f : S -> A -> nat -> S)
    (P : nat -> S -> Prop) (a : list A) (st : S) :
  (forall j x st, nth_error a j = Some x -> P j st -> P (Datatypes.S j) (f st x j)) ->
  P 0 st ->
  P (length a) (forEach f a st).
Proof.
  intros Hstep H0. unfold forEach.
  exact (forEachFrom_invariant f P a Hstep a [] st eq_refl H0).
Qed.

Lemma visitLine_closedUpTo lines j line st :
  nth_error lines j = Some line ->
  closedUpTo lines j st ->
  closedUpTo lines (S j) (visitLine lines st line j).
Proof.
  intros Hnth (sections & chi & -> & Hshape).
  assert (Hlen : j < length lines) by (apply nth_error_Some; congruence).
  unfold visitLine. destruct (startsWith hash line) eqn:Hh.
  - destruct Hshape as [(-> & -> & Hno) | (c & lc & -> & Hc & Hlc & Hhc & Hno & ->)].
    + simpl. exists [mkSection (stripHeadingMarker line) (Z.of_nat j) []], (Z.of_nat j).
      split; [reflexivity|]. right. exists j, line.
      repeat split; try assumption; try lia.
      rewrite (flat_map_sectionAt_none lines j 0); [reflexivity|].
      intros i l Hi. apply Hno. lia.
    + replace (negb (Z.of_nat c =? -1)%Z) with true
        by (symmetry; apply negb_true_iff; apply Z.eqb_neq; lia).
      rewrite (body_at_next_heading lines c j line Hc Hnth Hh Hno).
      rewrite closeSection_snoc. cbn [heading lineIndex].
      eexists _, (Z.of_nat j). split; [reflexivity|]. right. exists j, line.
      repeat split; try assumption; try lia.
      unfold push. f_equal.
      rewrite (flat_map_sectionAt_step lines c j Hc Hno).
      rewrite (sectionAt_heading lines c lc Hlc Hhc).
      replace (Nat.eqb (S c) (length lines)) with false
        by (symmetry; apply Nat.eqb_neq; lia).
      rewrite orb_false_r.
      destruct (truthy (bodyText lines c)); [reflexivity | now rewrite app_nil_r].
  - exists sections, chi. split; [reflexivity|].
    destruct Hshape as [(-> & -> & Hno) | (c & lc & -> & Hc & Hlc & Hhc & Hno & ->)].
    + left. repeat split; try reflexivity.
      intros i l Hi Hl. destruct (Nat.eq_dec i j) as [->|Hne].
      * congruence.
      * apply (Hno i l); [lia | exact Hl].
    + right. exists c, lc. repeat split; try assumption; try lia.
      intros i l Hi Hl. destruct (Nat.eq_dec i j) as [->|Hne].
      * congruence.
      * apply (Hno i l); [lia | exact Hl].
Qed.

(** The result of the segmenter in closed form: the contributions of the
    lines of the document, in their order. *)
Lemma findHeadingsAndContent_closed_form markdown :
  findHeadingsAndContent markdown
  = Some (flat_map (sectionAt (split (N.eqb nl) markdown))
            (seq 0 (length (split (N.eqb nl) markdown)))).
Proof.
  unfold findHeadingsAndContent.
  set (lines := split (N.eqb nl) markdown).
  destruct (forEach_invariant (visitLine lines) (closedUpTo lines) lines
              (Some ([], (-1)%Z)))
    as (sections & chi & Hrun & Hshape).
  { intros j x st. apply visitLine_closedUpTo. }
  { exists [], (-1)%Z. split; [reflexivity|]. left. repeat split.
    intros i l Hi. lia. }
  rewrite Hrun.
  destruct Hshape as [(-> & -> & Hno) | (c & lc & -> & Hc & Hlc & Hhc & Hno & ->)].
  - simpl. f_equal. symmetry. apply flat_map_sectionAt_none.
    intros i l Hi. apply Hno. lia.
  - replace (negb (Z.of_nat c =? -1)%Z) with true
      by (symmetry; apply negb_true_iff; apply Z.eqb_neq; lia).
    cbn [andb].
    assert (Hstep : flat_map (sectionAt lines) (seq 0 (length lines))
                    = flat_map (sectionAt lines) (seq 0 c) ++ sectionAt lines c)
      by (apply flat_map_sectionAt_step; assumption).
    rewrite Hstep. rewrite (sectionAt_heading lines c lc Hlc Hhc).
    destruct (Z.of_nat c <? Z.of_nat (length lines) - 1)%Z eqn:E.
    + apply Z.ltb_lt in E.
      rewrite (body_at_end lines c Hc Hno), closeSection_snoc. cbn [heading lineIndex].
      replace (Nat.eqb (S c) (length lines)) with false
        by (symmetry; apply Nat.eqb_neq; lia).
      rewrite orb_false_r.
      destruct (truthy (bodyText lines c)); [reflexivity | now rewrite app_nil_r].
    + apply Z.ltb_ge in E.
      replace (Nat.eqb (S c) (length lines)) with true
        by (symmetry; apply Nat.eqb_eq; lia).
      rewrite orb_true_r. do 3 f_equal.
      unfold bodyText, bodyLines. rewrite skipn_all2 by lia. reflexivity.
Qed.

(** X1. For every document the segmenter returns, in the order of the
    lines, one section for each line that starts with [#] and whose body,
    the lines after it up to the next line that starts with [#] or to the
    end of the document, has text once trimmed, and one for a line that
    starts with [#] and is the last line of the document; the section has
    the index of the line, the heading made of the line and the trimmed
    body as content. Nothing else is returned. *)
Theorem sections_in_closed_form (markdown : jsstring) :
  findHeadingsAndContent markdown
  = Some (flat_map (sectionAt (split (N.eqb nl) markdown))
            (seq 0 (length (split (N.eqb nl) markdown)))).
Proof. apply findHeadingsAndContent_closed_form. Qed.

Lemma in_sections lines s n :
  In s (flat_map (sectionAt lines) (seq 0 n)) ->
  exists i line,
    i < n /\ nth_error lines i = Some line /\ startsWith hash line = true /\
    s = mkSection (stripHeadingMarker line) (Z.of_nat i) (bodyText lines i).
Proof.
  intros H. apply in_flat_map in H as [i [Hi Hs]]. apply in_seq in Hi.
  unfold sectionAt in Hs. destruct (nth_error lines i) as [line|] eqn:Hl; [|destruct Hs].
  destruct (startsWith hash line) eqn:Hh; [|destruct Hs]. cbn [andb] in Hs.
  destruct (truthy (bodyText lines i) || Nat.eqb (S i) (length lines)); [|destruct Hs].
  destruct Hs as [<-|[]]. exists i, line.
  split; [lia|]. split; [exact Hl|]. split; [exact Hh | reflexivity].
Qed.

(** The lines up to the next heading are the first [n] lines given, for
    the [n] at which a line that starts with [#], or the end, is found. *)
Lemma untilHeading_run : forall rest : list jsstring,
  exists n,
    untilHeading rest = firstn n rest /\
    Forall (fun l => startsWith hash l = false) (firstn n rest) /\
    (nth_error rest n = None \/
     exists next, nth_error rest n = Some next /\ startsWith hash next = true).
Proof.
  induction rest as [|line r (n & Hrun & Hno & Hend)].
  - exists 0. repeat split; [constructor | now left].
  - cbn [untilHeading]. destruct (startsWith hash line) eqn:Hh.
    + exists 0. repeat split; [constructor | right; now exists line].
    + exists (S n). cbn [firstn nth_error]. rewrite Hrun.
      repeat split; [now constructor | exact Hend].
Qed.

(** X2. Every section the segmenter returns belongs to a line that starts
    with [#], the line at its [lineIndex], and its content is the trimmed
    text of the lines strictly between that line and the next line that
    starts with [#], or the end of the document: none of these lines
    starts with [#], and the content has no white space at either end.
    The text before the first heading is so in no section. *)
Theorem section_content_is_body (markdown : jsstring) :
  exists sections,
    findHeadingsAndContent markdown = Some sections /\
    forall s, In s sections ->
      exists (i n : nat) (line : jsstring),
        lineIndex s = Z.of_nat i /\
        nth_error (split (N.eqb nl) markdown) i = Some line /\
        startsWith hash line = true /\
        bodyLines (split (N.eqb nl) markdown) i
          = firstn n (skipn (S i) (split (N.eqb nl) markdown)) /\
        Forall (fun l => startsWith hash l = false)
          (firstn n (skipn (S i) (split (N.eqb nl) markdown))) /\
        (nth_error (split (N.eqb nl) markdown) (S i + n) = None \/
         exists next,
           nth_error (split (N.eqb nl) markdown) (S i + n) = Some next /\
           startsWith hash next = true) /\
        content s
          = trim (join eol (firstn n (skipn (S i) (split (N.eqb nl) markdown)))) /\
        trim (content s) = content s.
Proof.
  eexists. split; [apply findHeadingsAndContent_closed_form|].
  intros s Hs. apply in_sections in Hs as (i & line & _ & Hline & Hhash & ->).
  destruct (untilHeading_run (skipn (S i) (split (N.eqb nl) markdown)))
    as (n & Hrun & Hno & Hend).
  exists i, n, line. cbn [lineIndex content].
  rewrite nth_error_skipn in Hend.
  split; [reflexivity|]. split; [exact Hline|]. split; [exact Hhash|].
  split; [exact Hrun|]. split; [exact Hno|]. split; [exact Hend|].
  unfold bodyText, bodyLines. rewrite Hrun. split; [reflexivity|].
  apply trim_idempotent.
Qed.

(** The sections of the notes: the introduction is in none of them. *)
Example sections_of_notes :
  findHeadingsAndContent notes
  = Some [mkSection (lit "Plan") 3 (lit "step one" ++ eol ++ lit "step two");
          mkSection (lit "Risks") 6 (lit "none")].
Proof. vm_compute. reflexivity. Qed.

(** X3. A line that starts with [#] and whose body has text once trimmed
    gives a section: the one with the index of the line and that text. *)
Theorem heading_with_text_has_section (markdown : jsstring) (i : nat) (line : jsstring) :
  nth_error (split (N.eqb nl) markdown) i = Some line ->
  startsWith hash line = true ->
  bodyText (split (N.eqb nl) markdown) i <> [] ->
  exists sections,
    findHeadingsAndContent markdown = Some sections /\
    In (mkSection (stripHeadingMarker line) (Z.of_nat i)
          (bodyText (split (N.eqb nl) markdown) i)) sections.
Proof.
  intros Hl Hh Htext. eexists. split; [apply findHeadingsAndContent_closed_form|].
  apply in_flat_map. exists i. split.
  - apply in_seq. assert (i < length (split (N.eqb nl) markdown))
      by (apply nth_error_Some; congruence). lia.
  - rewrite (sectionAt_heading _ i line Hl Hh).
    destruct (bodyText (split (N.eqb nl) markdown) i) as [|c r] eqn:E;
      [contradiction|].
    simpl. now left.
Qed.

(** The section of the heading [## Plan] of the notes. *)
Lemma heading_with_text_has_section_witness :
  exists sections,
    findHeadingsAndContent notes = Some sections /\
    In (mkSection (lit "Plan") 3 (lit "step one" ++ eol ++ lit "step two")) sections.
Proof.
  apply (heading_with_text_has_section notes 3 (lit "## Plan")).
  - reflexivity.
  - reflexivity.
  - discriminate.
Defined.

(** X4. A document none of whose lines starts with [#] has no section. *)
Theorem no_heading_no_section (markdown : jsstring) :
  (forall line, In line (split (N.eqb nl) markdown) -> startsWith hash line = false) ->
  findHeadingsAndContent markdown = Some [].
Proof.
  intros Hno. rewrite findHeadingsAndContent_closed_form. f_equal.
  apply flat_map_sectionAt_none. intros i l _ Hl. apply Hno.
  eapply nth_error_In. exact Hl.
Qed.

Lemma no_heading_no_section_witness :
  findHeadingsAndContent plainNote = Some [].
Proof.
  apply (no_heading_no_section plainNote).
  intros line Hin. vm_compute in Hin.
  destruct Hin as [<-|[<-|[]]]; reflexivity.
Defined.

(** ** Title inference: the shape of the title *)

Lemma takeWhile_all (p : char -> bool) s : forallb p (takeWhile p s) = true.
Proof.
  induction s as [|c r IH]; simpl; [reflexivity|].
  destruct (p c) eqn:E; simpl; [now rewrite E | reflexivity].
Qed.

Lemma giveBack_one_line : forall k r g,
  giveBack k r = Some g -> forallb notLineTerminator g = true.
Proof.
  induction k as [|k IH]; intros r g H; simpl in H; [discriminate|].
  destruct (skipn (S k) r) as [|c t] eqn:E; [now apply (IH r)|].
  destruct (isLineTerminator c); [now apply (IH r)|].
  injection H as <-. exact (takeWhile_all notLineTerminator (c :: t)).
Qed.

Lemma matchHeading_one_line : forall s b g,
  matchHeading b s = Some g -> forallb notLineTerminator g = true.
Proof.
  induction s as [|c r IH]; intros b g H; simpl in H; [discriminate|].
  destruct b.
  - destruct (N.eqb c hash).
    + destruct (giveBack (length (takeWhile isWhiteSpace r)) r) as [g'|] eqn:E.
      * injection H as <-. now apply giveBack_one_line in E.
      * now apply IH in H.
    + now apply IH in H.
  - now apply IH in H.
Qed.

Lemma splitOn_first_clean (q : char -> bool) : forall s,
  forallb (fun c => negb (q c)) (fst (splitOn q s)) = true.
Proof.
  induction s as [|c r IH]; simpl; [reflexivity|].
  destruct (splitOn q r) as [h t]. simpl in IH.
  destruct (q c) eqn:E; simpl; [reflexivity|]. now rewrite E, IH.
Qed.

Lemma firstn_In_list {A : Type} (x : A) n l : In x (firstn n l) -> In x l.
Proof.
  intros H. rewrite <- (firstn_skipn n l). apply in_or_app. now left.
Qed.

(** A trimmed text cut after 47 characters and given the marker is
    trimmed. *)
Lemma truncated_is_trimmed s :
  47 <= length (trim s) ->
  trim (firstn 47 (trim s) ++ lit "...") = firstn 47 (trim s) ++ lit "...".
Proof.
  intros Hlen. apply trim_fixed.
  - destruct (trim_ends s) as [Hhead _].
    destruct (trim s) as [|c r]; [simpl in Hlen; lia|]. exact Hhead.
  - now rewrite rev_app_distr.
Qed.

(** X5. The title inferred from a document, whatever the document,
    contains no newline and has no white space at either end. *)
Theorem title_is_one_trimmed_line (content : jsstring) :
  ~ In nl (generateTitleFromContent content) /\
  trim (generateTitleFromContent content) = generateTitleFromContent content.
Proof.
  unfold generateTitleFromContent.
  destruct (matchHeading true content) as [g|] eqn:Hm.
  - split; [|apply trim_idempotent].
    intros Hin. apply trim_In in Hin.
    apply matchHeading_one_line in Hm. rewrite forallb_forall in Hm.
    apply Hm in Hin. discriminate Hin.
  - cbv zeta. set (first := fst (splitOn (N.eqb nl) content)).
    assert (Hclean : ~ In nl (trim first)).
    { intros Hin. apply trim_In in Hin.
      pose proof (splitOn_first_clean (N.eqb nl) content) as Hc.
      rewrite forallb_forall in Hc. apply Hc in Hin. discriminate Hin. }
    destruct (Nat.ltb 0 (length (trim first))); [|split; [|reflexivity]].
    + destruct (Nat.ltb 50 (length (trim first))) eqn:Hlong.
      * apply Nat.ltb_lt in Hlong. unfold substring.
        change (skipn 0 (trim first)) with (trim first).
        replace (47 - 0) with 47 by lia. split.
        -- intros Hin. apply in_app_or in Hin as [Hin|Hin].
           ++ apply firstn_In_list in Hin. contradiction.
           ++ vm_compute in Hin. intuition discriminate.
        -- apply truncated_is_trimmed. lia.
      * split; [exact Hclean | apply trim_idempotent].
    + vm_compute. intuition discriminate.
Qed.

(** X6. For a document in which no line starts with [#] followed by white
    space, the title is not empty and has at most 50 characters. *)
Theorem title_without_heading_bounded (content : jsstring) :
  hasHeadingStart true content = false ->
  0 < length (generateTitleFromContent content) <= 50.
Proof.
  intros Hnone. unfold generateTitleFromContent.
  rewrite matchHeading_none by assumption. cbv zeta.
  set (firstLine := trim (fst (splitOn (N.eqb nl) content))).
  destruct (Nat.ltb 0 (length firstLine)) eqn:Hpos; [|vm_compute; lia].
  apply Nat.ltb_lt in Hpos.
  destruct (Nat.ltb 50 (length firstLine)) eqn:Hlong.
  - apply Nat.ltb_lt in Hlong. unfold substring.
    rewrite length_app, length_firstn.
    change (skipn 0 firstLine) with firstLine.
    change (length (lit "...")) with 3. lia.
  - apply Nat.ltb_ge in Hlong. lia.
Qed.

Lemma title_without_heading_bounded_witness :
  0 < length (generateTitleFromContent (repeat 120%N 60 ++ eol ++ lit "more")) <= 50.
Proof.
  apply (title_without_heading_bounded (repeat 120%N 60 ++ eol ++ lit "more")).
  reflexivity.
Defined.

(** ** Diagram code generation: the programs in closed form *)

Lemma forEachFrom_ext {A S : Type} (f g : S -> A -> nat -> S) :
  (forall st x i, f st x i = g st x i) ->
  forall a i st, forEachFrom f i a st = forEachFrom g i a st.
Proof.
  intros H a. induction a as [|x r IH]; intros i st; simpl; [reflexivity|].
  now rewrite H, IH.
Qed.

(** A loop that appends [g x index] to the code for every element writes
    these texts one after the other. *)
Lemma forEachFrom_appends {A : Type} (g : A -> nat -> jsstring) : forall a i code,
  forEachFrom (fun code x index => code ++ g x index) i a code
  = code ++ concat (mapFrom g i a).
Proof.
  induction a as [|x r IH]; intros i code; cbn [forEachFrom mapFrom concat].
  - now rewrite app_nil_r.
  - rewrite IH. now rewrite <- app_assoc.
Qed.

Lemma forEach_appends {A : Type} (f : jsstring -> A -> nat -> jsstring)
    (g : A -> nat -> jsstring) (a : list A) (code : jsstring) :
  (forall code x i, f code x i = code ++ g x i) ->
  forEach f a code = code ++ concat (mapFrom g 0 a).
Proof.
  intros H. unfold forEach.
  rewrite (forEachFrom_ext f (fun code x index => code ++ g x index) H).
  apply forEachFrom_appends.
Qed.

Lemma fold_left_appends {A : Type} (h : A -> jsstring) : forall a code,
  fold_left (fun code i => code ++ h i) a code = code ++ concat (List.map h a).
Proof.
  induction a as [|x r IH]; intros code; cbn [fold_left List.map concat].
  - now rewrite app_nil_r.
  - rewrite IH. now rewrite <- app_assoc.
Qed.

Lemma length_mapFrom {A B : Type} (f : A -> nat -> B) : forall a i,
  length (mapFrom f i a) = length a.
Proof. induction a as [|x r IH]; intros i; simpl; [reflexivity | now rewrite IH]. Qed.

Lemma sanitized_all_plain (f : jsstring -> jsstring) (l : list jsstring) :
  Forall (fun e => plainText e = true) (List.map (fun s => sanitizeText (f s)) l).
Proof.
  apply List.Forall_forall. intros e He. apply in_map_iff in He as [s [<- _]].
  apply sanitizeText_is_plain.
Qed.

Lemma partnershipChart_closed content heading :
  partnershipChart content heading
  = lit "graph LR" ++ eol
    ++ lit "    A((" ++ dq ++ sanitizeText heading ++ dq ++ lit "))" ++ eol
    ++ concat (mapFrom entityLines 0 (entities content))
    ++ lit "    style A fill:#0277bd,stroke:#01579b,color:#fff" ++ eol.
Proof.
  unfold partnershipChart. fold (entities content).
  rewrite (forEach_appends _ entityLines).
  - now rewrite <- ?app_assoc.
  - intros code x i. unfold entityLines. now rewrite <- ?app_assoc.
Qed.

Lemma marketChart_closed {CM : CaseMapping} content heading :
  marketChart content heading
  = lit "graph TD" ++ eol
    ++ lit "    M((" ++ dq ++ sanitizeText heading ++ dq ++ lit "))" ++ eol
    ++ concat (mapFrom opportunityLines 0 (opportunities content))
    ++ lit "    style M fill:#7b1fa2,stroke:#4a148c,color:#fff" ++ eol.
Proof.
  unfold marketChart. fold (opportunities content).
  rewrite (forEach_appends _ opportunityLines).
  - now rewrite <- ?app_assoc.
  - intros code x i. unfold opportunityLines. now rewrite <- ?app_assoc.
Qed.

Lemma comparisonChart_closed content :
  comparisonChart content
  = lit "graph TB" ++ eol ++ lit "    subgraph Comparison" ++ eol
    ++ concat (mapFrom aspectLine 0 (aspects content))
    ++ concat (List.map aspectEdge (seq 0 (length (aspects content) - 1)))
    ++ lit "    end" ++ eol
    ++ lit "    style Comparison fill:#f5f5f5,stroke:#333,stroke-width:2px" ++ eol
    ++ concat (mapFrom aspectStyle 0 (aspects content)).
Proof.
  unfold comparisonChart. fold (aspects content).
  rewrite (forEach_appends _ aspectStyle)
    by (intros code x i; unfold aspectStyle; now rewrite <- ?app_assoc).
  rewrite (fold_left_appends aspectEdge).
  rewrite (forEach_appends _ aspectLine)
    by (intros code x i; unfold aspectLine; now rewrite <- ?app_assoc).
  now rewrite <- ?app_assoc.
Qed.

Lemma sequenceChart_closed content :
  sequenceChart content
  = lit "graph TD" ++ eol
    ++ concat (mapFrom stepLines 0 (steps content))
    ++ concat (mapFrom stepStyle 0 (steps content)).
Proof.
  unfold sequenceChart. fold (steps content).
  rewrite (forEach_appends _ stepStyle)
    by (intros code x i; unfold stepStyle; now rewrite <- ?app_assoc).
  rewrite (forEach_appends _ stepLines).
  - now rewrite <- ?app_assoc.
  - intros code x i. unfold stepLines.
    destruct (Nat.ltb 0 i); rewrite <- ?app_assoc; [reflexivity|].
    now rewrite !app_nil_r.
Qed.

(** *** What [sanitizeText] guarantees *)

Lemma length_dropWhile (p : char -> bool) s : length (dropWhile p s) <= length s.
Proof.
  induction s as [|c r IH]; simpl; [lia|]. destruct (p c); simpl; lia.
Qed.

Lemma length_trim s : length (trim s) <= length s.
Proof.
  unfold trim, trimEnd, trimStart. rewrite length_rev.
  etransitivity; [apply length_dropWhile|]. rewrite length_rev.
  apply length_dropWhile.
Qed.

Lemma length_sanitizeText s : length (sanitizeText s) <= length s.
Proof.
  unfold sanitizeText, removeAll, replaceAll.
  etransitivity; [apply length_trim|].
  etransitivity; [apply filter_length_le|].
  etransitivity; [apply filter_length_le|].
  now rewrite length_map.
Qed.

(** A character of the sanitized text is a character of the text, or the
    single quote put for a double quote. *)
Lemma sanitizeText_In c s : In c (sanitizeText s) -> c = squote \/ In c s.
Proof.
  intros H. unfold sanitizeText in H. apply trim_In in H.
  unfold removeAll in H. apply filter_In in H as [H _]. apply filter_In in H as [H _].
  unfold replaceAll in H. apply in_map_iff in H as [x [Hx Hin]].
  destruct (N.eqb x dquote); subst c; [now left | now right].
Qed.

(** X7. The text [sanitizeText] returns holds no double quote, no square
    bracket and no parenthesis, has no white space at either end and is
    not longer than the text it was given. *)
Theorem sanitizeText_output_safe (s : jsstring) :
  (forall c, In c (sanitizeText s) ->
     c <> dquote /\ isSquareBracket c = false /\ isParenthesis c = false) /\
  trim (sanitizeText s) = sanitizeText s /\
  length (sanitizeText s) <= length s.
Proof.
  split; [|split].
  - intros c Hc. pose proof (sanitizeText_is_plain s) as Hp.
    unfold plainText in Hp. rewrite forallb_forall in Hp. apply Hp in Hc.
    unfold plainChar in Hc.
    apply andb_prop in Hc as [Hc Hpar]. apply andb_prop in Hc as [Hq Hsq].
    apply negb_true_iff in Hq, Hsq, Hpar. apply N.eqb_neq in Hq. now repeat split.
  - unfold sanitizeText. apply trim_idempotent.
  - apply length_sanitizeText.
Qed.

(** *** The four charts *)

Lemma length_firstn_le {A : Type} n (l : list A) : length (firstn n l) <= n.
Proof. rewrite length_firstn. lia. Qed.



Section ChartStructure.
Context {CM : CaseMapping}.


(** X9. For content with a market keyword and no partnership keyword the
    program has the same shape under the header [graph TD], with at most
    four opportunities; each is the sanitized form of a sentence of the
    content that is not blank and holds one of the keywords growth,
    opportunity, potential and market. *)
Theorem market_chart_nodes (content heading : jsstring) :
  containsKeywords content partnershipKeywords = false ->
  containsKeywords content marketKeywords = true ->
  generateMermaidCode content heading
  = lit "graph TD" ++ eol
    ++ lit "    M((" ++ dq ++ sanitizeText heading ++ dq ++ lit "))" ++ eol
    ++ concat (mapFrom opportunityLines 0 (opportunities content))
    ++ lit "    style M fill:#7b1fa2,stroke:#4a148c,color:#fff" ++ eol /\
  length (opportunities content) <= 4 /\
  Forall (fun o =>
            plainText o = true /\
            exists s, In s (split isSentenceEnd content) /\
                      nonBlank s = true /\
                      containsKeywords s opportunityKeywords = true /\
                      o = sanitizeText (trim s))
         (opportunities content).
Proof.
  intros Hp Hm. split; [|split].
  - assert (E : generateMermaidCode content heading = marketChart content heading)
      by now apply classification_order.
    rewrite E. apply marketChart_closed.
  - unfold opportunities. rewrite length_map. apply length_firstn_le.
  - apply List.Forall_forall. intros o Ho. unfold opportunities in Ho.
    apply in_map_iff in Ho as [s [<- Hs]]. split; [apply sanitizeText_is_plain|].
    apply firstn_In_list in Hs. apply filter_In in Hs as [Hin Hkeep].
    apply andb_prop in Hkeep as [Hnb Hkw]. exists s. now repeat split.
Qed.

(** X10. For content with a competitive keyword and none of the two
    categories before, the program lists at most three aspects as nodes
    [A0], [A1], [A2] inside the subgraph, links each node to the next one,
    which makes one link less than there are nodes, and styles every
    node. No aspect holds a double quote, square bracket or parenthesis. *)
Theorem comparison_chart_chain (content heading : jsstring) :
  containsKeywords content partnershipKeywords = false ->
  containsKeywords content marketKeywords = false ->
  containsKeywords content competitiveKeywords = true ->
  generateMermaidCode content heading
  = lit "graph TB" ++ eol ++ lit "    subgraph Comparison" ++ eol
    ++ concat (mapFrom aspectLine 0 (aspects content))
    ++ concat (List.map aspectEdge (seq 0 (length (aspects content) - 1)))
    ++ lit "    end" ++ eol
    ++ lit "    style Comparison fill:#f5f5f5,stroke:#333,stroke-width:2px" ++ eol
    ++ concat (mapFrom aspectStyle 0 (aspects content)) /\
  length (aspects content) <= 3 /\
  Forall (fun a => plainText a = true) (aspects content).
Proof.
  intros Hp Hm Hc. split; [|split].
  - assert (E : generateMermaidCode content heading = comparisonChart content)
      by now apply classification_order.
    rewrite E. apply comparisonChart_closed.
  - unfold aspects. rewrite length_map. apply length_firstn_le.
  - apply sanitized_all_plain.
Qed.

(** X11. For content with a sequence keyword and none of the three
    categories before, the program lists at most five steps as nodes [S0]
    to [S4], each but the first followed by the link from the step before
    it, and then styles every node. No step holds a double quote, square
    bracket or parenthesis. *)
Theorem sequence_chart_chain (content heading : jsstring) :
  containsKeywords content partnershipKeywords = false ->
  containsKeywords content marketKeywords = false ->
  containsKeywords content competitiveKeywords = false ->
  containsKeywords content sequenceKeywords = true ->
  generateMermaidCode content heading
  = lit "graph TD" ++ eol
    ++ concat (mapFrom stepLines 0 (steps content))
    ++ concat (mapFrom stepStyle 0 (steps content)) /\
  length (steps content) <= 5 /\
  Forall (fun a => plainText a = true) (steps content).
Proof.
  intros Hp Hm Hc Hs. split; [|split].
  - assert (E : generateMermaidCode content heading = sequenceChart content)
      by now apply classification_order.
    rewrite E. apply sequenceChart_closed.
  - unfold steps. rewrite length_map. apply length_firstn_le.
  - apply sanitized_all_plain.
Qed.

End ChartStructure.


Lemma market_chart_nodes_witness :
  length (opportunities (CM:=BasicLatin) marketNote) <= 4.
Proof.
  apply (@market_chart_nodes BasicLatin marketNote (lit "Outlook"));
    reflexivity.
Defined.

Lemma comparison_chart_chain_witness :
  length (aspects rivalsNote) <= 3.
Proof.
  apply (@comparison_chart_chain BasicLatin rivalsNote (lit "Rivals"));
    reflexivity.
Defined.

Lemma sequence_chart_chain_witness :
  length (steps recipe) <= 5.
Proof.
  apply (@sequence_chart_chain BasicLatin recipe (lit "Recipe"));
    reflexivity.
Defined.

(** The four programs on the sample notes. *)
Example partnership_chart_of_tradeClauses :
  generateMermaidCode (CM:=BasicLatin) tradeClauses (lit "Deal")
  = lit "graph LR" ++ eol
    ++ lit "    A((" ++ dq ++ lit "Deal" ++ dq ++ lit "))" ++ eol
    ++ entityLines (lit "Trade pact") 0 ++ entityLines (lit "one") 1
    ++ entityLines (lit "two") 2 ++ entityLines (lit "three") 3
    ++ lit "    style A fill:#0277bd,stroke:#01579b,color:#fff" ++ eol.
Proof. vm_compute. reflexivity. Qed.

(** A clause with a line break inside: the node statement of [B0] takes
    two lines of the program. *)
Example partnership_chart_of_brokenClause :
  generateMermaidCode (CM:=BasicLatin) brokenClause (lit "Deal")
  = lit "graph LR" ++ eol
    ++ lit "    A((" ++ dq ++ lit "Deal" ++ dq ++ lit "))" ++ eol
    ++ lit "    A --> B0[" ++ dq ++ lit "trade one" ++ eol
    ++ lit "two" ++ dq ++ lit "]" ++ eol
    ++ lit "    style B0 fill:#e1f5fe,stroke:#01579b" ++ eol
    ++ lit "    A --> B1[" ++ dq ++ lit "three" ++ dq ++ lit "]" ++ eol
    ++ lit "    style B1 fill:#e1f5fe,stroke:#01579b" ++ eol
    ++ lit "    style A fill:#0277bd,stroke:#01579b,color:#fff" ++ eol.
Proof. vm_compute. reflexivity. Qed.

Example sequence_chart_of_recipe :
  generateMermaidCode (CM:=BasicLatin) recipe (lit "Recipe")
  = lit "graph TD" ++ eol
    ++ lit "    S0[" ++ dq ++ lit "First boil" ++ dq ++ lit "]" ++ eol
    ++ lit "    S1[" ++ dq ++ lit "Then stir" ++ dq ++ lit "]" ++ eol
    ++ lit "    S0 --> S1" ++ eol
    ++ lit "    style S0 fill:#fff3e0,stroke:#e65100" ++ eol
    ++ lit "    style S1 fill:#fff3e0,stroke:#e65100" ++ eol.
Proof. vm_compute. reflexivity. Qed.

(** *** The mind map and the placeholder *)

Lemma splitOn_clean (q : char -> bool) : forall s,
  Forall (fun piece => forallb (fun c => negb (q c)) piece = true)
    (fst (splitOn q s) :: snd (splitOn q s)).
Proof.
  induction s as [|c r IH]; simpl; [repeat constructor|].
  destruct (splitOn q r) as [h t]. simpl in IH.
  inversion IH as [|? ? Hh Ht]; subst.
  destruct (q c) eqn:E; simpl.
  - constructor; [reflexivity|]. now constructor.
  - constructor; [|exact Ht]. simpl. now rewrite E, Hh.
Qed.

Lemma split_pieces_clean (q : char -> bool) s piece :
  In piece (split q s) -> forallb (fun c => negb (q c)) piece = true.
Proof.
  intros H. pose proof (splitOn_clean q s) as Hc.
  unfold split in H. destruct (splitOn q s) as [h t]. simpl in Hc.
  rewrite List.Forall_forall in Hc. now apply Hc.
Qed.

(** A key point is a sentence of the content: it is not blank and holds
    no full stop, exclamation mark or question mark. *)
Lemma keyPoints_sentences content point :
  In point (keyPoints content) ->
  nonBlank point = true /\
  forallb (fun c => negb (isSentenceEnd c)) point = true.
Proof.
  intros H. unfold keyPoints in H. apply firstn_In_list in H.
  apply filter_In in H as [Hin Hnb]. split; [exact Hnb|].
  now apply split_pieces_clean in Hin.
Qed.


(** The marker at the end of a text is kept by [sanitizeText]. *)
Lemma dropWhile_keeps_tail (p : char -> bool) d :
  headOutside p d = true ->
  forall x, exists y, dropWhile p (x ++ d) = y ++ d.
Proof.
  intros Hd. induction x as [|c x IH]; simpl.
  - exists []. now apply dropWhile_fixed.
  - destruct (p c); [exact IH|]. now exists (c :: x).
Qed.

Lemma sanitizeText_keeps_marker x :
  exists y, sanitizeText (x ++ lit "...") = y ++ lit "...".
Proof.
  unfold sanitizeText, removeAll, replaceAll.
  rewrite List.map_app, !List.filter_app.
  set (x' := List.filter _ (List.filter _ (List.map _ x))).
  change (List.filter (fun c => negb (isParenthesis c))
            (List.filter (fun c => negb (isSquareBracket c))
               (List.map (fun c => if N.eqb c dquote then squote else c) (lit "..."))))
    with (lit "...").
  unfold trim, trimStart.
  destruct (dropWhile_keeps_tail isWhiteSpace (lit "...") eq_refl x') as [y Hy].
  rewrite Hy. exists y. unfold trimEnd. rewrite rev_app_distr.
  rewrite dropWhile_fixed by reflexivity.
  now rewrite <- rev_app_distr, rev_involutive.
Qed.

Section MindMap.
Context {CM : CaseMapping}.



(** X13. In the mind map a leaf ends with the marker [...] exactly when
    its sentence has more than 50 characters: a sentence holds no full
    stop of its own. *)
Theorem leaf_marker_iff_truncated (content point : jsstring) :
  In point (keyPoints content) ->
  (exists y, nodeText point = y ++ lit "...") <-> 50 < length point.
Proof.
  intros Hin. apply keyPoints_sentences in Hin as [_ Hclean].
  unfold nodeText. split.
  - intros [y Hy]. destruct (Nat.ltb 50 (length point)) eqn:E;
      [now apply Nat.ltb_lt in E|]. exfalso.
    rewrite app_nil_r in Hy.
    assert (Hdot : In 46%N (sanitizeText (substring 0 50 point))).
    { rewrite Hy. apply in_or_app. right. simpl. tauto. }
    apply sanitizeText_In in Hdot as [Hq|Hdot]; [discriminate Hq|].
    unfold substring in Hdot. apply firstn_In_list in Hdot.
    change (skipn 0 point) with point in Hdot.
    rewrite forallb_forall in Hclean. apply Hclean in Hdot. discriminate Hdot.
  - intros Hlong. apply Nat.ltb_lt in Hlong. rewrite Hlong.
    apply sanitizeText_keeps_marker.
Qed.

End MindMap.


(** A sentence with a line break inside: its leaf takes two lines of the
    program, the second of which is not indented. *)
Example mindmap_of_brokenSentence :
  generateMermaidCode (CM:=BasicLatin) brokenSentence (lit "Notes")
  = lit "mindmap" ++ eol
    ++ lit "  root((Notes))" ++ eol
    ++ lit "    alpha" ++ eol
    ++ lit "beta" ++ eol
    ++ lit "    gamma" ++ eol.
Proof. vm_compute. reflexivity. Qed.

Lemma leaf_marker_iff_truncated_witness :
  (exists y, nodeText (32%N :: repeat 97%N 79) = y ++ lit "...")
  <-> 50 < length (32%N :: repeat 97%N 79).
Proof.
  apply (leaf_marker_iff_truncated prose (32%N :: repeat 97%N 79)).
  vm_compute. tauto.
Defined.

(** X14. The placeholder node is returned exactly for content that holds
    no keyword of the four categories and no sentence with text; every
    other content gets a chart or a mind map. *)
Theorem placeholder_iff {CM : CaseMapping} (content heading : jsstring) :
  generateMermaidCode content heading = placeholderDiagram <->
  containsKeywords content partnershipKeywords = false /\
  containsKeywords content marketKeywords = false /\
  containsKeywords content competitiveKeywords = false /\
  containsKeywords content sequenceKeywords = false /\
  keyPoints content = [].
Proof.
  split.
  - intros H.
    destruct (containsKeywords content partnershipKeywords) eqn:H1.
    { exfalso. rewrite (proj1 (classification_order content heading) H1) in H.
      rewrite partnershipChart_closed in H.
      apply (f_equal (fun t => nth 6 t 0%N)) in H. lazy in H. discriminate H. }
    destruct (containsKeywords content marketKeywords) eqn:H2.
    { exfalso.
      rewrite (proj1 (proj2 (classification_order content heading)) H1 H2) in H.
      rewrite marketChart_closed in H.
      apply (f_equal (fun t => nth 13 t 0%N)) in H. lazy in H. discriminate H. }
    destruct (containsKeywords content competitiveKeywords) eqn:H3.
    { exfalso.
      rewrite (proj1 (proj2 (proj2 (classification_order content heading))) H1 H2 H3) in H.
      rewrite comparisonChart_closed in H.
      apply (f_equal (fun t => nth 7 t 0%N)) in H. lazy in H. discriminate H. }
    destruct (containsKeywords content sequenceKeywords) eqn:H4.
    { exfalso.
      rewrite (proj1 (proj2 (proj2 (proj2 (classification_order content heading))))
                 H1 H2 H3 H4) in H.
      rewrite sequenceChart_closed in H.
      destruct (steps content) as [|s r].
      - apply (f_equal (@length char)) in H. lazy in H. discriminate H.
      - apply (f_equal (fun t => nth 13 t 0%N)) in H. lazy in H. discriminate H. }
    repeat split.
    rewrite generateMermaidCode_default in H by assumption.
    destruct (keyPoints content) as [|p r]; [reflexivity|]. exfalso.
    cbn [length Nat.ltb Nat.leb] in H. rewrite mindmap_lines in H.
    apply (f_equal (fun t => nth 0 t 0%N)) in H. lazy in H. discriminate H.
  - intros (H1 & H2 & H3 & H4 & Hk). now apply default_branch_placeholder.
Qed.

(** ** The document view *)

Lemma join_app (sep : jsstring) : forall a b : list jsstring,
  b <> [] ->
  join sep (a ++ b)
  = match a with
    | [] => join sep b
    | _ :: _ => join sep a ++ sep ++ join sep b
    end.
Proof.
  induction a as [|x a IH]; intros b Hb; [reflexivity|].
  specialize (IH b Hb). destruct a as [|y a].
  - destruct b as [|z b]; [contradiction|]. reflexivity.
  - change (join sep ((x :: y :: a) ++ b)) with (x ++ sep ++ join sep ((y :: a) ++ b)).
    rewrite IH. change (join sep (x :: y :: a)) with (x ++ sep ++ join sep (y :: a)).
    now rewrite <- !app_assoc.
Qed.

(** Adding the text of a group of lines to texts that read as a prefix of
    the lines gives texts that read as the longer prefix. *)
Lemma join_extend (sep : jsstring) (texts prefix group : list jsstring) :
  join sep texts = join sep prefix ->
  (texts = [] <-> prefix = []) ->
  group <> [] ->
  join sep (texts ++ [join sep group]) = join sep (prefix ++ group).
Proof.
  intros Hj Hiff Hg. rewrite !join_app by (assumption || discriminate).
  destruct texts as [|t ts], prefix as [|q qs]; try reflexivity.
  - assert (H : q :: qs = []) by now apply Hiff. discriminate H.
  - assert (H : t :: ts = []) by now apply Hiff. discriminate H.
  - rewrite Hj. reflexivity.
Qed.

(** Splitting a text at its newlines and joining the lines with newlines
    gives the text back. *)
Lemma join_split (s : jsstring) : join eol (split (N.eqb nl) s) = s.
Proof.
  unfold split. induction s as [|c r IH]; [reflexivity|].
  cbn [splitOn]. destruct (splitOn (N.eqb nl) r) as [h t].
  change (join eol (h :: t) = r) in IH.
  destruct (N.eqb nl c) eqn:E.
  - apply N.eqb_eq in E. subst c.
    change (join eol ([] :: h :: t)) with ([] ++ eol ++ join eol (h :: t)).
    rewrite IH. reflexivity.
  - destruct t as [|x t].
    + simpl in *. now rewrite IH.
    + change (join eol ((c :: h) :: x :: t)) with (c :: (h ++ eol ++ join eol (x :: t))).
      change (join eol (h :: x :: t)) with (h ++ eol ++ join eol (x :: t)) in IH.
      now rewrite IH.
Qed.

Lemma split_not_empty (q : char -> bool) s : split q s <> [].
Proof. unfold split. destruct (splitOn q s). discriminate. Qed.

Lemma firstn_plus {A : Type} : forall (a m : nat) (l : list A),
  firstn (a + m) l = firstn a l ++ firstn m (skipn a l).
Proof.
  induction a as [|a IH]; intros m l; [reflexivity|].
  destruct l as [|x l]; simpl.
  - now rewrite firstn_nil.
  - now rewrite IH.
Qed.

Lemma firstn_succ_nth {A : Type} : forall (n : nat) (l : list A) (x : A),
  nth_error l n = Some x -> firstn (S n) l = firstn n l ++ [x].
Proof.
  induction n as [|n IH]; intros l x H; destruct l as [|y l]; try discriminate.
  - simpl in H. injection H as ->. reflexivity.
  - simpl in H. cbn [firstn]. rewrite (IH l x H). reflexivity.
Qed.

Lemma slice_nat {A : Type} (a : list A) (m n : nat) :
  m <= n -> n <= length a ->
  slice a (Z.of_nat m) (Z.of_nat n) = firstn (n - m) (skipn m a).
Proof.
  intros Hmn Hn. unfold slice, sliceIndex.
  replace (Z.of_nat m <? 0)%Z with false by (symmetry; apply Z.ltb_ge; lia).
  replace (Z.of_nat n <? 0)%Z with false by (symmetry; apply Z.ltb_ge; lia).
  rewrite !Z.min_l by lia.
  replace (Z.to_nat (Z.of_nat n - Z.of_nat m)) with (n - m) by lia.
  now rewrite Nat2Z.id.
Qed.

Lemma diagramsOf_app a b : diagramsOf (a ++ b) = diagramsOf a ++ diagramsOf b.
Proof.
  induction a as [|e a IH]; [reflexivity|].
  destruct e; simpl; now rewrite IH.
Qed.

(** The loop of [renderDocument] over sections in the order of their
    lines, from the line [k] on: it throws nothing, and the elements read
    as the lines before the line it stops at. *)
Lemma renderSection_loop lines : forall sections i blocks k,
  StronglySorted Z.lt (List.map lineIndex sections) ->
  Forall (fun s => (Z.of_nat k <= lineIndex s < Z.of_nat (length lines))%Z) sections ->
  k <= length lines ->
  join eol (List.map elementText blocks) = join eol (firstn k lines) ->
  (List.map elementText blocks = [] <-> firstn k lines = []) ->
  exists blocks' k',
    forEachFrom (renderSection lines) i sections (Some (blocks, Z.of_nat k))
      = Some (blocks', Z.of_nat k') /\
    k' <= length lines /\
    join eol (List.map elementText blocks') = join eol (firstn k' lines) /\
    (List.map elementText blocks' = [] <-> firstn k' lines = []) /\
    diagramsOf blocks'
      = diagramsOf blocks ++ List.map (fun s => (content s, heading s)) sections.
Proof.
  induction sections as [|s r IH]; intros i blocks k Hsorted Hrange Hk Hjoin Hiff.
  - exists blocks, k. cbn [forEachFrom List.map]. rewrite app_nil_r.
    split; [reflexivity|]. split; [exact Hk|]. split; [exact Hjoin|].
    split; [exact Hiff | reflexivity].
  - inversion Hsorted as [|? ? Hsorted' Hlater]; subst.
    inversion Hrange as [|? ? [Hlow Hhigh] Hrange']; subst.
    set (n := Z.to_nat (lineIndex s)).
    assert (Hn : lineIndex s = Z.of_nat n) by (unfold n; lia).
    assert (Hline : exists line, nth_error lines n = Some line).
    { destruct (nth_error lines n) as [line|] eqn:E; [now exists line|].
      apply nth_error_None in E. lia. }
    destruct Hline as [line Hline].
    cbn [forEachFrom]. unfold renderSection at 2.
    unfold lineAtIndex.
    replace (lineIndex s <? 0)%Z with false by (symmetry; apply Z.ltb_ge; lia).
    fold n. rewrite Hline.
    set (blocks1 :=
           if (Z.of_nat k <? lineIndex s)%Z
           then blocks ++ [TextBlock (lit "text-" ++ numberToString i)
                             (join eol (slice lines (Z.of_nat k) (lineIndex s)))]
           else blocks).
    assert (H1 : join eol (List.map elementText blocks1) = join eol (firstn n lines) /\
                 (List.map elementText blocks1 = [] <-> firstn n lines = []) /\
                 diagramsOf blocks1 = diagramsOf blocks).
    { unfold blocks1. destruct (Z.of_nat k <? lineIndex s)%Z eqn:E.
      - apply Z.ltb_lt in E. rewrite Hn, slice_nat by lia.
        assert (Hfirst : firstn n lines
                         = firstn k lines ++ firstn (n - k) (skipn k lines)).
        { rewrite <- firstn_plus. f_equal. lia. }
        rewrite Hfirst.
        assert (Hgroup : firstn (n - k) (skipn k lines) <> []).
        { intros Hnil. apply (f_equal (@length jsstring)) in Hnil.
          rewrite length_firstn, length_skipn in Hnil. simpl in Hnil. lia. }
        rewrite List.map_app. cbn [List.map elementText]. split; [|split].
        + now apply join_extend.
        + split; intros Hnil; exfalso.
          * apply app_eq_nil in Hnil as [_ Hnil]. discriminate Hnil.
          * apply app_eq_nil in Hnil as [_ Hnil]. contradiction.
        + rewrite diagramsOf_app. simpl. now rewrite app_nil_r.
      - apply Z.ltb_ge in E. assert (k = n) by lia. subst k.
        split; [exact Hjoin|]. split; [exact Hiff | reflexivity]. }
    destruct H1 as (Hjoin1 & Hiff1 & Hdiag1).
    rewrite Hn. replace (Z.of_nat n + 1)%Z with (Z.of_nat (S n)) by lia.
    destruct (IH (S i)
                (blocks1 ++ [SectionBlock (lit "section-" ++ numberToString i)
                               (isPrefix (lit "# ") line) line (content s) (heading s)])
                (S n)) as (blocks' & k' & Hrun & Hk' & Hjoin' & Hiff' & Hdiag').
    + exact Hsorted'.
    + rewrite List.Forall_forall in Hrange', Hlater.
      apply List.Forall_forall. intros x Hx.
      specialize (Hrange' x Hx).
      assert (lineIndex s < lineIndex x)%Z
        by (apply Hlater; now apply in_map).
      lia.
    + lia.
    + rewrite List.map_app. cbn [List.map elementText].
      rewrite (firstn_succ_nth n lines line Hline).
      change line with (join eol [line]) at 1.
      apply join_extend; [exact Hjoin1 | exact Hiff1 | discriminate].
    + rewrite List.map_app, (firstn_succ_nth n lines line Hline).
      split; intros Hnil; exfalso; apply app_eq_nil in Hnil as [_ Hnil];
        discriminate Hnil.
    + exists blocks', k'. split; [exact Hrun|]. split; [exact Hk'|].
      split; [exact Hjoin'|]. split; [exact Hiff'|].
      rewrite Hdiag', diagramsOf_app, Hdiag1. cbn [diagramsOf List.map].
      now rewrite <- app_assoc.
Qed.

Lemma renderDocument_in_order (markdown : jsstring)
    (sections : list AnimationSection) :
  StronglySorted Z.lt (List.map lineIndex sections) ->
  Forall (fun s => (0 <= lineIndex s
                    < Z.of_nat (length (split (N.eqb nl) markdown)))%Z) sections ->
  exists blocks,
    renderDocument true markdown sections = Some (Some blocks) /\
    join eol (List.map elementText blocks) = markdown /\
    diagramsOf blocks = List.map (fun s => (content s, heading s)) sections.
Proof.
  intros Hsorted Hrange. unfold renderDocument. cbn [negb].
  set (lines := split (N.eqb nl) markdown) in *.
  destruct (renderSection_loop lines sections 0 [] 0 Hsorted Hrange)
    as (blocks & k & Hrun & Hk & Hjoin & Hiff & Hdiag);
    [lia | reflexivity | tauto |].
  unfold forEach. change 0%Z with (Z.of_nat 0). rewrite Hrun.
  destruct (Z.of_nat k <? Z.of_nat (length lines))%Z eqn:E.
  - apply Z.ltb_lt in E. eexists. split; [reflexivity|]. split.
    + unfold sliceFrom. rewrite slice_nat by lia.
      rewrite firstn_all2 by (rewrite length_skipn; lia).
      rewrite List.map_app. cbn [List.map elementText].
      rewrite (join_extend eol _ (firstn k lines) (skipn k lines) Hjoin Hiff).
      * rewrite firstn_skipn. apply join_split.
      * intros Hnil. apply (f_equal (@length jsstring)) in Hnil.
        rewrite length_skipn in Hnil. simpl in Hnil. lia.
    + rewrite diagramsOf_app, Hdiag. simpl. now rewrite app_nil_r.
  - apply Z.ltb_ge in E. exists blocks. split; [reflexivity|]. split.
    + rewrite Hjoin, firstn_all2 by lia. apply join_split.
    + exact Hdiag.
Qed.


(** X15. Given sections in the strict order of their lines, each at a
    line of the text, [renderDocument] throws nothing; the texts of its
    elements, joined by newlines, are the text of the document: every line
    is shown once, in its place; and the diagrams of its elements are
    those of the sections, in order. *)
Theorem renderDocument_shows_document (markdown : jsstring)
    (sections : list AnimationSection) :
  StronglySorted Z.lt (List.map lineIndex sections) ->
  Forall (fun s => (0 <= lineIndex s
                    < Z.of_nat (length (split (N.eqb nl) markdown)))%Z) sections ->
  exists blocks,
    renderDocument true markdown sections = Some (Some blocks) /\
    join eol (List.map elementText blocks) = markdown /\
    diagramsOf blocks = List.map (fun s => (content s, heading s)) sections.
Proof. apply renderDocument_in_order. Qed.

(** The view of the notes with their two sections. *)
Lemma renderDocument_shows_document_witness :
  exists blocks,
    renderDocument true notes
      [mkSection (lit "Plan") 3 (lit "step one" ++ eol ++ lit "step two");
       mkSection (lit "Risks") 6 (lit "none")] = Some (Some blocks) /\
    join eol (List.map elementText blocks) = notes /\
    diagramsOf blocks
      = [(lit "step one" ++ eol ++ lit "step two", lit "Plan"); (lit "none", lit "Risks")].
Proof.
  apply (renderDocument_shows_document notes
           [mkSection (lit "Plan") 3 (lit "step one" ++ eol ++ lit "step two");
            mkSection (lit "Risks") 6 (lit "none")]).
  - repeat constructor.
  - repeat constructor; vm_compute; congruence.
Defined.

Lemma forEachFrom_renderSection_thrown lines : forall sections i,
  forEachFrom (renderSection lines) i sections None = None.
Proof. induction sections as [|s r IH]; intros i; simpl; [reflexivity | apply IH]. Qed.

Lemma forEachFrom_renderSection_throws lines : forall sections i blocks currentLine,
  forEachFrom (renderSection lines) i sections (Some (blocks, currentLine)) = None
  <-> Exists (fun s => lineAtIndex lines (lineIndex s) = None) sections.
Proof.
  induction sections as [|s r IH]; intros i blocks currentLine.
  - simpl. split; [discriminate | intros H; inversion H].
  - cbn [forEachFrom]. unfold renderSection at 2.
    destruct (lineAtIndex lines (lineIndex s)) as [line|] eqn:E.
    + rewrite IH. split.
      * intros H. now apply Exists_cons_tl.
      * intros H. inversion H as [? ? Hs|? ? Hr]; subst; [congruence | exact Hr].
    + rewrite forEachFrom_renderSection_thrown. split; [|reflexivity].
      intros _. now apply Exists_cons_hd.
Qed.

(** X16. [renderDocument] throws exactly when the page shows the
    visualization and some section has a [lineIndex] that is not the index
    of a line of the text, as sections kept from another text can. *)
Theorem renderDocument_throws_iff (showVisualization : bool) (markdown : jsstring)
    (sections : list AnimationSection) :
  renderDocument showVisualization markdown sections = None <->
  showVisualization = true /\
  Exists (fun s => (lineIndex s < 0
                    \/ Z.of_nat (length (split (N.eqb nl) markdown)) <= lineIndex s)%Z)
    sections.
Proof.
  unfold renderDocument. destruct showVisualization; cbn [negb].
  2:{ split; [discriminate | intros [H _]; discriminate H]. }
  set (lines := split (N.eqb nl) markdown).
  assert (Hout : forall s,
            lineAtIndex lines (lineIndex s) = None <->
            (lineIndex s < 0 \/ Z.of_nat (length lines) <= lineIndex s)%Z).
  { intros s. unfold lineAtIndex. destruct (lineIndex s <? 0)%Z eqn:E.
    - apply Z.ltb_lt in E. split; [now left | reflexivity].
    - apply Z.ltb_ge in E. rewrite nth_error_None. lia. }
  unfold forEach.
  destruct (forEachFrom (renderSection lines) 0 sections (Some ([], 0%Z)))
    as [[blocks currentLine]|] eqn:Hrun.
  - split.
    + destruct (currentLine <? Z.of_nat (length lines))%Z; discriminate.
    + intros [_ Hex]. exfalso.
      assert (Hnone : forEachFrom (renderSection lines) 0 sections (Some ([], 0%Z)) = None).
      { apply forEachFrom_renderSection_throws.
        apply List.Exists_exists in Hex as [s [Hin Hs]].
        apply List.Exists_exists. exists s. split; [exact Hin | now apply Hout]. }
      congruence.
  - split; [|reflexivity]. intros _. split; [reflexivity|].
    apply forEachFrom_renderSection_throws in Hrun.
    apply List.Exists_exists in Hrun as [s [Hin Hs]].
    apply List.Exists_exists. exists s. split; [exact Hin | now apply Hout].
Qed.

(** ** The handlers of the page *)

Lemma handle_keeps_segmented st a :
  loadsSegmented a ->
  (showVisualization st = true ->
   findHeadingsAndContent (markdownContent st) = Some (animations st)) ->
  showVisualization (handle st a) = true ->
  findHeadingsAndContent (markdownContent (handle st a))
    = Some (animations (handle st a)).
Proof.
  intros Hload Hinv. destruct a as [| |value|pastedText|report]; cbn [handle].
  - unfold handleSubmit.
    destruct (negb (truthy (trim (markdownContent st)))); [exact Hinv|].
    destruct (findHeadingsAndContent (markdownContent st)) as [found|] eqn:E.
    + intros _. exact E.
    + cbn. intros Hshow. specialize (Hinv Hshow). congruence.
  - cbn. discriminate.
  - cbn. discriminate.
  - cbn. discriminate.
  - cbn. intros _. exact Hload.
Qed.

Lemma run_segmented : forall actions st,
  Forall loadsSegmented actions ->
  (showVisualization st = true ->
   findHeadingsAndContent (markdownContent st) = Some (animations st)) ->
  showVisualization (fold_left handle actions st) = true ->
  findHeadingsAndContent (markdownContent (fold_left handle actions st))
    = Some (animations (fold_left handle actions st)).
Proof.
  induction actions as [|a r IH]; intros st Hloads Hinv; [exact Hinv|].
  inversion Hloads as [|? ? Ha Hr]; subst. cbn [fold_left].
  apply IH; [exact Hr|]. now apply handle_keeps_segmented.
Qed.

(** X17. After any series of submissions, new starts, edits, pastes and
    loads of reports whose sections are those of their text, a page that
    shows the visualization holds the sections of the text it holds, and
    rendering the document throws nothing and shows every line of that
    text once, in its place, with the diagrams of these sections. *)
Theorem page_renders_its_text (actions : list action) :
  Forall loadsSegmented actions ->
  showVisualization (run actions) = true ->
  findHeadingsAndContent (markdownContent (run actions))
    = Some (animations (run actions)) /\
  exists blocks,
    renderDocument (showVisualization (run actions)) (markdownContent (run actions))
      (animations (run actions)) = Some (Some blocks) /\
    join eol (List.map elementText blocks) = markdownContent (run actions) /\
    diagramsOf blocks
      = List.map (fun s => (content s, heading s)) (animations (run actions)).
Proof.
  intros Hloads Hshow.
  assert (Hseg : findHeadingsAndContent (markdownContent (run actions))
                 = Some (animations (run actions))).
  { apply run_segmented; [exact Hloads | discriminate | exact Hshow]. }
  split; [exact Hseg|]. rewrite Hshow.
  destruct (findHeadingsAndContent_sections (markdownContent (run actions)))
    as (sections & Hfound & Hsorted & Hanch & _).
  rewrite Hseg in Hfound. injection Hfound as <-.
  apply renderDocument_in_order; [exact Hsorted|].
  eapply List.Forall_impl; [|exact Hanch]. intros s [Hpos (line & Hl & _)].
  assert (Z.to_nat (lineIndex s)
          < length (split (N.eqb nl) (markdownContent (run actions))))
    by (apply nth_error_Some; congruence).
  lia.
Qed.

(** A paste, a submission, an edit and a second submission. *)
Lemma page_renders_its_text_witness :
  findHeadingsAndContent
    (markdownContent (run [Paste notes; Submit; ContentChange draft; Submit]))
  = Some (animations (run [Paste notes; Submit; ContentChange draft; Submit])).
Proof.
  apply (page_renders_its_text [Paste notes; Submit; ContentChange draft; Submit]).
  - repeat constructor.
  - reflexivity.
Defined.

(** ** Listing the reports *)

Section ListingProperties.
Import Firestore Listing.
Variable notAFunction : string -> jsstring.

Lemma insertReport_perm a : forall l, Permutation (insertReport a l) (a :: l).
Proof.
  induction l as [|b r IH]; simpl; [apply Permutation_refl|].
  destruct (createdAt b - createdAt a <=? 0)%Z; [apply Permutation_refl|].
  eapply Permutation_trans; [apply perm_skip, IH | apply perm_swap].
Qed.

Lemma sortReports_perm : forall l, Permutation (sortReports l) l.
Proof.
  induction l as [|a r IH]; simpl; [apply Permutation_refl|].
  eapply Permutation_trans; [apply insertReport_perm | now apply perm_skip].
Qed.

Lemma insertReport_sorted a : forall l,
  StronglySorted newestFirst l -> StronglySorted newestFirst (insertReport a l).
Proof.
  induction l as [|b r IH]; intros Hs; simpl.
  - constructor; constructor.
  - inversion Hs as [|? ? Hr Hb]; subst.
    destruct (createdAt b - createdAt a <=? 0)%Z eqn:E.
    + apply Z.leb_le in E. constructor; [exact Hs|].
      constructor; [unfold newestFirst; lia|].
      eapply List.Forall_impl; [|exact Hb]. unfold newestFirst. intros x Hx. lia.
    + apply Z.leb_gt in E. constructor; [now apply IH|].
      apply (Permutation_Forall (Permutation_sym (insertReport_perm a r))).
      constructor; [unfold newestFirst; lia | exact Hb].
Qed.

Lemma sortReports_sorted : forall l, StronglySorted newestFirst (sortReports l).
Proof.
  induction l as [|a r IH]; simpl; [constructor|]. now apply insertReport_sorted.
Qed.

Lemma loadOne_dated doc w :
  dated doc ->
  exists r w', loadOne notAFunction doc w = (inr r, w') /\ loadedFrom doc r.
Proof.
  intros [Hc Hu]. unfold loadOne, bind, dateOrNow, ret. cbv zeta.
  destruct Hc as [Hc|[tc Hc]], Hu as [Hu|[tu Hu]]; rewrite Hc, Hu;
    eexists _, _; (split; [reflexivity|]);
    unfold loadedFrom; cbn [id userId title content animations createdAt updatedAt];
    repeat split; intros t Ht; congruence.
Qed.

Lemma loadAll_dated : forall docs w,
  Forall dated docs ->
  exists reports w',
    loadAll notAFunction docs w = (inr reports, w') /\
    Forall2 loadedFrom docs reports.
Proof.
  induction docs as [|doc rest IH]; intros w Hd.
  - exists [], w. split; [reflexivity | constructor].
  - inversion Hd as [|? ? Hdoc Hrest]; subst.
    destruct (loadOne_dated doc w Hdoc) as (r & w1 & Hone & Hfrom).
    destruct (IH w1 Hrest) as (rs & w2 & Hall & Hfroms).
    exists (r :: rs), w2. split; [|now constructor].
    cbn [loadAll]. unfold bind at 1. rewrite Hone.
    unfold bind at 1. rewrite Hall. reflexivity.
Qed.

Lemma loadedFrom_ids docs reports :
  Forall2 loadedFrom docs reports -> List.map id reports = List.map fst docs.
Proof.
  induction 1 as [|d r ds rs [Hid _] _ IH]; [reflexivity|].
  simpl. now rewrite Hid, IH.
Qed.

Lemma loadedFrom_in docs reports r :
  Forall2 loadedFrom docs reports -> In r reports ->
  exists doc, In doc docs /\ loadedFrom doc r.
Proof.
  induction 1 as [|d r' ds rs Hone _ IH]; intros Hr; [destruct Hr|].
  destruct Hr as [<-|Hr].
  - exists d. split; [now left | exact Hone].
  - destruct (IH Hr) as [doc [Hin Hfrom]]. exists doc. split; [now right | exact Hfrom].
Qed.

(** X18. When the database answers with documents whose dates are missing
    or dates, [getReports] returns one report for each document, newest
    first by [createdAt]. Each report has the identifier and the [userId]
    of its document, its title, content and sections, or the empty string
    and the empty array in place of a missing or empty one, and its stored
    dates. *)
Theorem getReports_newest_first (authOk : bool) (user : jsstring)
    (docs : list (jsstring * object)) (w : World) :
  Forall dated docs ->
  exists reports,
    fst (getReports notAFunction true authOk user (Snapshot docs) w) = inr reports /\
    StronglySorted newestFirst reports /\
    Permutation (List.map id reports) (List.map fst docs) /\
    forall r, In r reports -> exists doc, In doc docs /\ loadedFrom doc r.
Proof.
  intros Hd. unfold getReports. cbn [negb].
  destruct docs as [|doc rest].
  - exists []. repeat split; [constructor | constructor | intros r []].
  - destruct (loadAll_dated (doc :: rest) w Hd) as (reports & w' & Hall & Hfrom).
    exists (sortReports reports). unfold bind. rewrite Hall. cbn [fst ret].
    split; [reflexivity|]. split; [apply sortReports_sorted|]. split.
    + rewrite <- (loadedFrom_ids _ _ Hfrom).
      apply Permutation_map, sortReports_perm.
    + intros r Hr. apply (loadedFrom_in _ _ r Hfrom).
      now apply (Permutation_in _ (sortReports_perm reports)).
Qed.

(** The callback throws on the property the document fails on, with the
    TypeError that names it. *)
Lemma loadOne_failsOn doc name w :
  failsOn doc name ->
  exists w', loadOne notAFunction doc w = (inl (mkError None (notAFunction name)), w').
Proof.
  unfold loadOne, bind, dateOrNow, ret. cbv zeta.
  intros [[-> (v & Hv & Hnot)] | [-> [Hc (v & Hv & Hnot)]]].
  - rewrite Hv. destruct v as [s|t|items];
      [eexists; reflexivity | now destruct (Hnot t) | eexists; reflexivity].
  - rewrite Hv.
    destruct Hc as [Hc|[tc Hc]]; rewrite Hc;
      (destruct v as [s|t|items];
         [eexists; reflexivity | now destruct (Hnot t) | eexists; reflexivity]).
Qed.

(** [map] stops at the first document the callback throws on. *)
Lemma loadAll_first_failure bad rest name : forall good w,
  Forall dated good -> failsOn bad name ->
  exists w',
    loadAll notAFunction (good ++ bad :: rest) w
    = (inl (mkError None (notAFunction name)), w').
Proof.
  induction good as [|doc good IH]; intros w Hgood Hbad.
  - cbn [app loadAll]. unfold bind at 1.
    destruct (loadOne_failsOn bad name w Hbad) as [w1 Hone]. rewrite Hone.
    exists w1. reflexivity.
  - inversion Hgood as [|? ? Hdoc Hrest]; subst.
    destruct (loadOne_dated doc w Hdoc) as (r & w1 & Hone & _).
    destruct (IH w1 Hrest Hbad) as [w2 Hall].
    cbn [app loadAll]. unfold bind at 1. rewrite Hone.
    unfold bind at 1. rewrite Hall. exists w2. reflexivity.
Qed.

(** A list with a misdated document splits at the first one, which fails
    on one of its two dates. *)
Lemma misdated_first : forall docs,
  Exists misdated docs ->
  exists good bad rest name,
    docs = good ++ bad :: rest /\ Forall dated good /\ failsOn bad name.
Proof.
  induction docs as [|doc docs IH]; intros Hex; [inversion Hex|].
  assert (Hcase : failsOn doc "createdAt" \/ failsOn doc "updatedAt" \/ dated doc).
  { unfold failsOn, notDate, dated.
    destruct (snd doc !! "createdAt") as [[s|tc|items]|] eqn:Ec.
    - left. left. split; [reflexivity|]. eexists. split; [reflexivity | discriminate].
    - destruct (snd doc !! "updatedAt") as [[s|tu|items]|] eqn:Eu.
      + right. left. right. split; [reflexivity|]. split; [right; now eexists|].
        eexists. split; [reflexivity | discriminate].
      + right. right. split; right; now eexists.
      + right. left. right. split; [reflexivity|]. split; [right; now eexists|].
        eexists. split; [reflexivity | discriminate].
      + right. right. split; [right; now eexists | now left].
    - left. left. split; [reflexivity|]. eexists. split; [reflexivity | discriminate].
    - destruct (snd doc !! "updatedAt") as [[s|tu|items]|] eqn:Eu.
      + right. left. right. split; [reflexivity|]. split; [now left|].
        eexists. split; [reflexivity | discriminate].
      + right. right. split; [now left | right; now eexists].
      + right. left. right. split; [reflexivity|]. split; [now left|].
        eexists. split; [reflexivity | discriminate].
      + right. right. split; now left. }
  destruct Hcase as [Hf|[Hf|Hd]].
  - exists [], doc, docs, "createdAt". now repeat split.
  - exists [], doc, docs, "updatedAt". now repeat split.
  - assert (Hrest : Exists misdated docs).
    { inversion Hex as [? ? Hdoc|? ? Hr]; subst; [|exact Hr]. exfalso.
      destruct Hdoc as (v & Hv & Hnot), Hd as [Hc Hu].
      destruct Hv as [Hv|Hv].
      - destruct Hc as [Hc|[t Hc]]; rewrite Hc in Hv; [discriminate|].
        injection Hv as <-. now apply (Hnot t).
      - destruct Hu as [Hu|[t Hu]]; rewrite Hu in Hv; [discriminate|].
        injection Hv as <-. now apply (Hnot t). }
    destruct (IH Hrest) as (good & bad & rest & name & -> & Hgood & Hbad).
    exists (doc :: good), bad, rest, name. split; [reflexivity|].
    split; [now constructor | exact Hbad].
Qed.


(** Every list with a misdated document is of this form: the call fails
    with the message that names one of the two dates. *)
Lemma getReports_fails_if_misdated (user : jsstring)
    (docs : list (jsstring * object)) (w : World) :
  Exists misdated docs ->
  exists name,
    (name = "createdAt" \/ name = "updatedAt") /\
    fst (getReports notAFunction true true user (Snapshot docs) w)
      = inl (lit "Failed to load reports: " ++ notAFunction name).
Proof.
  intros Hex.
  destruct (misdated_first docs Hex) as (good & bad & rest & name & -> & Hgood & Hbad).
  exists name. split.
  - destruct Hbad as [[-> _]|[-> _]]; [now left | now right].
  - unfold getReports. cbn [negb].
    destruct (loadAll_first_failure bad rest name good w Hgood Hbad) as [w' Hall].
    destruct (good ++ bad :: rest) as [|doc docs] eqn:E;
      [now destruct (app_cons_not_nil good rest bad)|].
    unfold bind. rewrite Hall. reflexivity.
Qed.

End ListingProperties.

Lemma olderDoc_dated : Listing.dated olderDoc.
Proof.
  split; right; eexists; unfold olderDoc; cbn [snd].
  - rewrite lookup_insert_ne by discriminate. apply lookup_insert_eq.
  - rewrite !lookup_insert_ne by discriminate. apply lookup_insert_eq.
Defined.

Lemma newerDoc_dated : Listing.dated newerDoc.
Proof.
  split; unfold newerDoc; cbn [snd].
  - right. eexists. apply lookup_insert_eq.
  - left. rewrite lookup_insert_ne by discriminate. apply lookup_empty.
Defined.


(** The list of the two sample reports. *)
Lemma getReports_newest_first_witness :
  exists reports,
    fst (Listing.getReports v8NotAFunction true true (lit "u1")
           (Listing.Snapshot [olderDoc; newerDoc]) quietWorld) = inr reports /\
    StronglySorted Listing.newestFirst reports /\
    Permutation (List.map Listing.id reports) (List.map fst [olderDoc; newerDoc]) /\
    forall r, In r reports ->
      exists doc, In doc [olderDoc; newerDoc] /\ Listing.loadedFrom doc r.
Proof.
  apply (getReports_newest_first v8NotAFunction true (lit "u1")
           [olderDoc; newerDoc] quietWorld).
  constructor; [exact olderDoc_dated|]. constructor; [exact newerDoc_dated | constructor].
Defined.


(** With the third document alone the message names [createdAt]. *)
Example getReports_of_brokenDoc :
  fst (Listing.getReports v8NotAFunction true true (lit "u1")
         (Listing.Snapshot [brokenDoc]) quietWorld)
  = inl (lit "Failed to load reports: data.createdAt?.toDate is not a function").
Proof. vm_compute. reflexivity. Qed.
